(** * Multimodal Parkinson's screening: the inference pipeline and its two shells

    A shallow embedding of [multimodal_infer.py] (the command-line shell and
    the shared helpers) and of [server.py] (the Flask handler of
    [POST /predict]).

    Conventions of the embedding.
    - A Python [float] is a value of a carrier [F] with the operations of the
      class [PyFloat].  Two carriers are given: [Q], where every operation is
      exact (the reading in which the specification's arithmetic is meant),
      and [float], IEEE 754 binary64 with the kernel's primitive operations
      (what CPython computes).  General statements are proved over [Q];
      concrete runs are evaluated over both.
    - Code that can raise returns a [result]; every exception of the model is
      an instance of a subclass of [Exception], so [except Exception] catches
      all of them.
    - The third-party libraries (OpenCV, Keras, parselmouth, scikit-learn,
      pydub, the operating system) are the fields of an environment [Env]:
      each field says what the library answers, or which exception it raises.
    - The handler runs in a state monad over a [World]: the files on disk, the
      counter that names temporary files, and the log of [os.remove] calls. *)

From Stdlib Require Import ZArith QArith Qabs Lqa Floats Lia Ascii.
From stdpp Require Import base option list strings pretty gmap.

Local Open Scope string_scope.

(** ** Python values shared by both files *)

Module Py.

(** An exception instance: its class name and [str(e)]. *)
Record exn := Exn { exn_class : string; exn_msg : string }.

Inductive result (A : Type) : Type :=
| Ok (a : A)
| Raise (e : exn).
Arguments Ok {A} a.
Arguments Raise {A} e.

Definition bind {A B} (r : result A) (k : A -> result B) : result B :=
  match r with
  | Ok a => k a
  | Raise e => Raise e
  end.

Definition is_ok {A} (r : result A) : bool :=
  match r with Ok _ => true | Raise _ => false end.

(** [try: r except Exception: h] *)
Definition try_except {A} (r : result A) (h : exn -> result A) : result A :=
  match r with
  | Ok a => Ok a
  | Raise e => h e
  end.

(** [l[i]] on a sequence, for [0 <= i]. *)
Definition index {A} (l : list A) (i : nat) : result A :=
  match l !! i with
  | Some a => Ok a
  | None => Raise (Exn "IndexError" "index out of range")
  end.

(** [l[:n]]: a negative bound counts from the end. *)
Definition slice_to {A} (l : list A) (n : Z) : list A :=
  if (0 <=? n)%Z then take (Z.to_nat n) l
  else take (Z.to_nat (Z.of_nat (length l) + n)) l.

(** [s[-1:]], the last character of a string. *)
Fixpoint last_char (s : string) : option ascii :=
  match s with
  | String c "" => Some c
  | String _ s' => last_char s'
  | "" => None
  end.

End Py.
Export Py.

#[export] Instance result_ret : MRet result := @Ok.
#[export] Instance result_bind : MBind result := fun A B k r => Py.bind r k.

(** ** Floats *)

(** The operations the two files apply to floats.  [lit q] is the float
    written as the decimal (or integer) literal [q]. *)
Class PyFloat (F : Type) := {
  fadd : F -> F -> F;
  fsub : F -> F -> F;
  fmul : F -> F -> F;
  fdiv : F -> F -> F;
  fabs : F -> F;
  feqb : F -> F -> bool;
  fltb : F -> F -> bool;
  fleb : F -> F -> bool;
  lit : Q -> F
}.

(** Exact arithmetic. *)
#[export] Instance exact : PyFloat Q := {|
  fadd := Qplus;
  fsub := Qminus;
  fmul := Qmult;
  fdiv := Qdiv;
  fabs := Qabs;
  feqb := Qeq_bool;
  fltb := fun x y => negb (Qle_bool y x);
  fleb := Qle_bool;
  lit := fun q => q
|}.

(** Binary64.  An integer below 2^53 converts exactly and IEEE division rounds
    to nearest, so [float_of_Q (n # d)] is the double nearest to [n/d] for the
    literals of the two files. *)
Definition float_of_Z (z : Z) : float :=
  match z with
  | Z0 => PrimFloat.of_uint63 (Uint63.of_Z 0)
  | Zpos p => PrimFloat.of_uint63 (Uint63.of_Z (Zpos p))
  | Zneg p => PrimFloat.opp (PrimFloat.of_uint63 (Uint63.of_Z (Zpos p)))
  end.

Definition float_of_Q (q : Q) : float :=
  PrimFloat.div (float_of_Z (Qnum q)) (float_of_Z (Zpos (Qden q))).

#[export] Instance binary64 : PyFloat float := {|
  fadd := PrimFloat.add;
  fsub := PrimFloat.sub;
  fmul := PrimFloat.mul;
  fdiv := PrimFloat.div;
  fabs := PrimFloat.abs;
  feqb := PrimFloat.eqb;
  fltb := PrimFloat.ltb;
  fleb := PrimFloat.leb;
  lit := float_of_Q
|}.

(** ** [float(s)] on a string *)

Module FloatParse.

(** What [float(s)] denotes: a decimal, an infinity or a NaN.  The decimal
    is kept exact; [lit] turns it into the carrier's float. *)
Inductive parsed := Finite (q : Q) | PosInf | NegInf | NaN.

Definition is_space (c : ascii) : bool :=
  let n := nat_of_ascii c in
  ((9 <=? n) && (n <=? 13) || (28 <=? n) && (n <=? 32))%nat.

Definition digit_of (c : ascii) : option Z :=
  let n := nat_of_ascii c in
  if ((48 <=? n) && (n <=? 57))%nat then Some (Z.of_nat (n - 48)) else None.

Definition lower (c : ascii) : ascii :=
  let n := nat_of_ascii c in
  if ((65 <=? n) && (n <=? 90))%nat then ascii_of_nat (n + 32) else c.

Fixpoint lstrip (l : list ascii) : list ascii :=
  match l with
  | c :: l' => if is_space c then lstrip l' else l
  | [] => []
  end.

Definition strip (l : list ascii) : list ascii :=
  rev (lstrip (rev (lstrip l))).

(** [digit (["_"] digit)*], after its first digit: the digits read so far
    (most significant first, reversed at the end) and the rest. *)
Fixpoint digits_tail (acc : list Z) (l : list ascii) : list Z * list ascii :=
  match l with
  | c :: l' =>
      match digit_of c with
      | Some d => digits_tail (d :: acc) l'
      | None =>
          if Ascii.eqb c "_" then
            match l' with
            | c' :: l'' =>
                match digit_of c' with
                | Some d => digits_tail (d :: acc) l''
                | None => (rev acc, l)
                end
            | [] => (rev acc, l)
            end
          else (rev acc, l)
      end
  | [] => (rev acc, [])
  end.

Definition digitpart (l : list ascii) : option (list Z * list ascii) :=
  match l with
  | c :: l' =>
      match digit_of c with
      | Some d => Some (digits_tail [d] l')
      | None => None
      end
  | [] => None
  end.

Definition number_of (ds : list Z) : Z :=
  fold_left (fun acc d => (10 * acc + d)%Z) ds 0%Z.

Definition take_sign (l : list ascii) : bool * list ascii :=
  match l with
  | c :: l' =>
      if Ascii.eqb c "-" then (true, l')
      else if Ascii.eqb c "+" then (false, l')
      else (false, l)
  | [] => (false, [])
  end.

(** [[digitpart] "." digitpart | digitpart ["."]]: integer digits and
    fraction digits. *)
Definition number (l : list ascii) : option (list Z * list Z * list ascii) :=
  match digitpart l with
  | Some (ip, r) =>
      match r with
      | c :: r' =>
          if Ascii.eqb c "." then
            match digitpart r' with
            | Some (fp, r'') => Some (ip, fp, r'')
            | None => Some (ip, [], r')
            end
          else Some (ip, [], r)
      | [] => Some (ip, [], [])
      end
  | None =>
      match l with
      | c :: r' =>
          if Ascii.eqb c "." then
            match digitpart r' with
            | Some (fp, r'') => Some ([], fp, r'')
            | None => None
            end
          else None
      | [] => None
      end
  end.

(** [("e" | "E") [sign] digitpart], or nothing. *)
Definition exponent (l : list ascii) : option (Z * list ascii) :=
  match l with
  | c :: l' =>
      if Ascii.eqb (lower c) "e" then
        let '(neg, l'') := take_sign l' in
        match digitpart l'' with
        | Some (ds, r) => Some (if neg then (- number_of ds)%Z else number_of ds, r)
        | None => None
        end
      else Some (0%Z, l)
  | [] => Some (0%Z, [])
  end.

Definition scale (m e : Z) : Q :=
  match e with
  | Zneg p => Qmake m (Pos.pow 10 p)
  | _ => Qmake (m * 10 ^ e) 1
  end.

Definition floatnumber (l : list ascii) : option Q :=
  match number l with
  | Some (ip, fp, r) =>
      match exponent r with
      | Some (e, []) =>
          Some (scale (number_of (ip ++ fp)) (e - Z.of_nat (length fp)))
      | _ => None
      end
  | None => None
  end.

(** [float(s)]: [None] stands for [ValueError].  ASCII only: the digits and
    the white space of other scripts are not recognised. *)
Definition py_float (s : string) : option parsed :=
  let '(neg, body) := take_sign (strip (String.list_ascii_of_string s)) in
  let word := String.string_of_list_ascii (map lower body) in
  if String.eqb word "inf" || String.eqb word "infinity" then
    Some (if neg then NegInf else PosInf)
  else if String.eqb word "nan" then Some NaN
  else
    match floatnumber body with
    | Some q => Some (Finite (if neg then Qopp q else q))
    | None => None
    end.

(** [a < t] and [a > t] for a parsed float [a] and an integer literal [t]. *)
Definition lt_lit `{PyFloat F} (a : parsed) (t : Q) : bool :=
  match a with
  | Finite q => fltb (lit q) (lit t : F)
  | NegInf => true
  | PosInf | NaN => false
  end.

Definition gt_lit `{PyFloat F} (a : parsed) (t : Q) : bool :=
  match a with
  | Finite q => fltb (lit t : F) (lit q)
  | PosInf => true
  | NegInf | NaN => false
  end.

End FloatParse.
Export FloatParse.

(** ** Arrays of pixels *)

(** An image array is its shape and the chain of library calls that made it;
    the pixel values themselves are OpenCV's and Keras's business. *)
Inductive imread_flag := IMREAD_COLOR | IMREAD_GRAYSCALE.
Inductive cvt_code := COLOR_BGR2GRAY | COLOR_GRAY2BGR.

Inductive pixels :=
| Decoded (content : string) (flag : imread_flag)
| CvtColor (p : pixels) (code : cvt_code)
| Resized (p : pixels) (W H : Z)
| Scaled255 (p : pixels)
| ImgToArray (p : pixels)
| Channel0 (p : pixels)
| ExpandDims (p : pixels) (axis : Z).

Record ndarray := NdArray { shape : list Z; pixels_of : pixels }.

(** An entry of Keras's [input_shape]: [None], an integer, or anything else
    (a nested shape of a multi-input model). *)
Inductive dim := DimNone | DimInt (n : Z) | DimOther.

(** ** [multimodal_infer.py] *)

Module Infer.
Section WithFloat.

Context {F : Type} `{PyFloat F}.

Definition matrix := list (list F).

(** The fitted scaler: the two attributes the code looks for (absent
    attributes are [None]) and [transform]. *)
Record Scaler := {
  feature_names_in_ : option (list string);
  n_features_in_ : option Z;
  transform : matrix -> result matrix
}.

(** The voice classifier: [predict_proba] when it has one, and [predict]. *)
Record VoiceModel := {
  predict_proba : option (matrix -> result matrix);
  predict : matrix -> result (list F)
}.

(** parselmouth objects.  A [Pitch] is what its
    [selected_array['frequency']] evaluates to. *)
Record Sound := { sound_data : string }.
Record Pitch := { selected_frequency : result (list F) }.

Record Env := {
  (* cv2.imread on the bytes of a file: the decoded height and width,
     [None] when OpenCV cannot decode them *)
  decode_image : string -> option (positive * positive);
  (* drawing_model.input_shape and drawing_model.predict(..).flatten() *)
  input_shape : list dim;
  drawing_predict : ndarray -> result (list F);
  (* parselmouth.Sound on the bytes of a file, snd.to_pitch(),
     snd.to_harmonicity_ac().values.mean() *)
  read_sound : string -> result Sound;
  to_pitch : Sound -> result Pitch;
  harmonicity_mean : Sound -> result F;
  voice_scaler : Scaler;
  voice_model : VoiceModel;
  (* str(a) of a float, as an f-string interpolates it *)
  str_float : parsed -> string
}.

Variable env : Env.
(** The files on disk: path to contents. *)
Variable fs : gmap string string.

(** *** Helpers *)

Definition int_of_dim (d : option dim) : option Z :=
  match d with
  | Some (DimInt n) => Some n
  | _ => None
  end.

(** [H, W, C] of lines 31-36: any failure gives the default for all three. *)
Definition target_shape (in_shape : list dim) : Z * Z * Z :=
  match int_of_dim (in_shape !! 1%nat), int_of_dim (in_shape !! 2%nat),
        int_of_dim (in_shape !! 3%nat) with
  | Some h, Some w, Some c => (h, w, c)
  | _, _, _ => (224, 224, 3)%Z
  end.

Definition cv2_imread (img_path : string) (flag : imread_flag) : option ndarray :=
  match fs !! img_path with
  | Some content =>
      match decode_image env content with
      | Some (h, w) =>
          Some (NdArray
                  (match flag with
                   | IMREAD_COLOR => [Zpos h; Zpos w; 3%Z]
                   | IMREAD_GRAYSCALE => [Zpos h; Zpos w]
                   end)
                  (Decoded content flag))
      | None => None
      end
  | None => None
  end.

(** An image file OpenCV can read, and one it cannot: missing, or not
    decodable. *)
Definition readable (path : string) : Prop :=
  exists content h w,
    fs !! path = Some content /\ decode_image env content = Some (h, w).

Definition unreadable (path : string) : Prop :=
  fs !! path = None \/
  exists content, fs !! path = Some content /\ decode_image env content = None.

Definition cv2_cvtColor (img : ndarray) (code : cvt_code) : ndarray :=
  NdArray
    (match code with
     | COLOR_BGR2GRAY => take 2 (shape img)
     | COLOR_GRAY2BGR => take 2 (shape img) ++ [3%Z]
     end)
    (CvtColor (pixels_of img) code).

(** [cv2.resize(img, (W, H))] refuses an empty target size. *)
Definition cv2_resize (img : ndarray) (W H : Z) : result ndarray :=
  if ((0 <? W) && (0 <? H))%Z then
    Ok (NdArray ([H; W] ++ drop 2 (shape img)) (Resized (pixels_of img) W H))
  else Raise (Exn "cv2.error" "(-215:Assertion failed) !dsize.empty() in function 'resize'").

(** Keras's [img_to_array]: rank 3 is kept, rank 2 gets a channel axis. *)
Definition img_to_array (img : ndarray) : result ndarray :=
  match length (shape img) with
  | 3%nat => Ok (NdArray (shape img) (ImgToArray (pixels_of img)))
  | 2%nat => Ok (NdArray (shape img ++ [1%Z]) (ImgToArray (pixels_of img)))
  | _ => Raise (Exn "ValueError" "Unsupported image shape")
  end.

Definition get_drawing_input (img_path : string) : result ndarray :=
  let '(Hh, W, C) := target_shape (input_shape env) in
  match cv2_imread img_path (if (C =? 3)%Z then IMREAD_COLOR else IMREAD_GRAYSCALE) with
  | None => Raise (Exn "FileNotFoundError" ("Image not found: " +:+ img_path))
  | Some img =>
      let img := if (C =? 1)%Z && (length (shape img) =? 3)%nat
                 then cv2_cvtColor img COLOR_BGR2GRAY else img in
      let img := if (C =? 3)%Z && (length (shape img) =? 2)%nat
                 then cv2_cvtColor img COLOR_GRAY2BGR else img in
      img ← cv2_resize img W Hh;
      let img := NdArray (shape img) (Scaled255 (pixels_of img)) in
      arr ← img_to_array img;
      let arr := if (C =? 1)%Z && (length (shape arr) =? 3)%nat
                 then NdArray (take 2 (shape arr) ++ [1%Z]) (ExpandDims (Channel0 (pixels_of arr)) (-1))
                 else arr in
      Ok (NdArray (1%Z :: shape arr) (ExpandDims (pixels_of arr) 0))
  end.

(** [np.where(f0_arr==0, np.nan, f0_arr)]: [None] is NaN. *)
Definition where_zero_nan (f0_arr : list F) : list (option F) :=
  map (fun x => if feqb x (lit 0) then None else Some x) f0_arr.

(** [np.nanmean]: the mean of the entries that are not NaN, NaN when there
    is none (numpy warns and does not raise).  The entries are added in
    array order. *)
Definition nanmean (xs : list (option F)) : option F :=
  match omap id xs with
  | [] => None
  | v :: vs =>
      Some (fdiv (fold_left fadd vs v) (lit (Z.of_nat (length (v :: vs)) # 1)))
  end.

(** [expected_n_features or d]: [None] and [0] are falsy. *)
Definition or_default (expected_n_features : option Z) (d : Z) : Z :=
  match expected_n_features with
  | Some n => if (n =? 0)%Z then d else n
  | None => d
  end.

(** Lines 58-71: the three base features. *)
Definition base_feats (snd : Sound) (pitch : Pitch) : list F :=
  let f0 :=
    match selected_frequency pitch with
    | Ok f0_arr => nanmean (where_zero_nan f0_arr)
    | Raise _ => Some (lit 0)
    end in
  let hnr :=
    match harmonicity_mean env snd with
    | Ok h => h
    | Raise _ => lit 0
    end in
  [match f0 with Some x => x | None => lit 0 end; hnr; lit 0].

(** Lines 74-77: the width to produce. *)
Definition target_width (expected_n_features : option Z) (nbase : nat) : Z :=
  match feature_names_in_ (voice_scaler env) with
  | Some names => Z.of_nat (length names)
  | None =>
      or_default expected_n_features
        (match n_features_in_ (voice_scaler env) with
         | Some m => m
         | None => Z.of_nat nbase
         end)
  end.

(** Lines 79-83: truncate, or pad with zeros on the right. *)
Definition pad_or_truncate (base : list F) (n : Z) : list F :=
  if (n <=? Z.of_nat (length base))%Z then slice_to base n
  else base ++ replicate (Z.to_nat n - length base) (lit 0).

(** [parselmouth.Sound(wav_path)] *)
Definition parselmouth_Sound (wav_path : string) : result Sound :=
  match fs !! wav_path with
  | Some content => read_sound env content
  | None => Raise (Exn "PraatError" ("Cannot open file " +:+ wav_path))
  end.

Definition extract_voice_from_wav (wav_path : string)
    (expected_n_features : option Z) : result matrix :=
  snd ← parselmouth_Sound wav_path;
  pitch ← to_pitch env snd;
  let base := base_feats snd pitch in
  let n := target_width expected_n_features (length base) in
  Ok [pad_or_truncate base n].

(** *** Inference *)

(** [v_raw.shape[1]] *)
Definition ncols (m : matrix) : Z :=
  match m with
  | r :: _ => Z.of_nat (length r)
  | [] => 0
  end.

(** [np.zeros((1, n))] *)
Definition np_zeros_row (n : Z) : result matrix :=
  if (n <? 0)%Z then Raise (Exn "ValueError" "negative dimensions are not allowed")
  else Ok [replicate (Z.to_nat n) (lit 0)].

(** Lines 98-104. *)
Definition scale_voice (v_raw : matrix) : result matrix :=
  try_except (transform (voice_scaler env) v_raw)
    (fun _ =>
       let n := match n_features_in_ (voice_scaler env) with
                | Some m => m
                | None => ncols v_raw
                end in
       z ← np_zeros_row n;
       transform (voice_scaler env) z).

(** Lines 105-108 (and 115-118 of the server). *)
Definition voice_prob (v_scaled : matrix) : result F :=
  match predict_proba (voice_model env) with
  | Some proba =>
      m ← proba v_scaled;
      col ← mapM (M:=result) (fun row => index row 1) m;
      index col 0
  | None =>
      p ← predict (voice_model env) v_scaled;
      index p 0
  end.

(** [draw_weight * d_prob + voice_weight * v_prob] *)
Definition combine (draw_weight d_prob voice_weight v_prob : F) : F :=
  fadd (fmul draw_weight d_prob) (fmul voice_weight v_prob).

(** ['Parkinson' if final>=0.5 else 'No Parkinson'] *)
Definition decision (final : F) : string :=
  if fleb (lit 0.5) final then "Parkinson" else "No Parkinson".

(** [abs(final-0.5) * 2] *)
Definition confidence (final : F) : F :=
  fmul (fabs (fsub final (lit 0.5))) (lit 2).

(** Lines 114-121: the caution of the command-line shell. *)
Definition age_caution (age : option string) : option string :=
  match age with
  | Some s =>
      match py_float s with
      | Some a =>
          if lt_lit (F:=F) a 18 || gt_lit (F:=F) a 80 then
            Some ("⚠ Age = " +:+ str_float env a +:+
                  ": model may be unreliable for very young/old people; interpret result cautiously.")
          else None
      | None => None
      end
  | None => None
  end.

(** What the shell prints: the values its lines interpolate. *)
Record Report := {
  r_drawing_prob : F;
  r_voice_prob : F;
  r_combined : F;
  r_decision : string;
  r_confidence : F;
  r_caution : option string
}.

Definition multimodal_predict (img_path wav_path : string) (age : option string)
    (draw_weight voice_weight : F) : result Report :=
  d_in ← get_drawing_input img_path;
  out ← drawing_predict env d_in;
  d_prob ← index out 0;
  let expected := n_features_in_ (voice_scaler env) in
  v_raw ← extract_voice_from_wav wav_path expected;
  v_scaled ← scale_voice v_raw;
  v_prob ← voice_prob v_scaled;
  let final := combine draw_weight d_prob voice_weight v_prob in
  let caution := age_caution age in
  Ok {| r_drawing_prob := d_prob;
        r_voice_prob := v_prob;
        r_combined := final;
        r_decision := decision final;
        r_confidence := confidence final;
        r_caution := caution |}.

End WithFloat.

Arguments Scaler F : clear implicits.
Arguments VoiceModel F : clear implicits.
Arguments Pitch F : clear implicits.
Arguments Env F : clear implicits.
Arguments Report F : clear implicits.

(** The defaults of [--draw-weight] and [--voice-weight]. *)
Definition default_draw_weight `{PyFloat F} : F := lit 0.55.
Definition default_voice_weight `{PyFloat F} : F := lit 0.45.

End Infer.

(** ** [server.py] *)

Module Server.
Section WithFloat.

Context {F : Type} `{PyFloat F}.

(** *** The request and the response *)

(** An uploaded file as werkzeug hands it over; it is truthy when its
    [filename] is a non-empty string. *)
Record FileStorage := { filename : option string; stream : string }.

Record Request := {
  form : gmap string string;
  files : gmap string FileStorage
}.

#[local] Set Warnings "-register-all".
Inductive json :=
| JNull
| JString (s : string)
| JNumber (x : F)
| JArray (l : list json)
| JObject (l : list (string * json)).

Record Response := { body : json; status : Z }.

(** [jsonify(d), code]; a bare [jsonify(d)] is sent with 200. *)
Definition jsonify (d : list (string * json)) (code : Z) : Response :=
  {| body := JObject d; status := code |}.

(** Reading a field of a JSON object back. *)
Fixpoint assoc (k : string) (d : list (string * json)) : option json :=
  match d with
  | (k', v) :: d' => if String.eqb k k' then Some v else assoc k d'
  | [] => None
  end.

Definition field (k : string) (r : Response) : option json :=
  match body r with
  | JObject d => assoc k d
  | _ => None
  end.

Definition number_field (k : string) (r : Response) : option F :=
  match field k r with
  | Some (JNumber x) => Some x
  | _ => None
  end.

(** *** The world the handler runs in *)

Record Audio := { audio_data : string }.

Record ServerEnv := {
  infer_env : Infer.Env F;
  (* AudioSegment.from_file(bytes, format="webm") and audio.export(format="wav") *)
  from_file_webm : string -> result Audio;
  export_wav : Audio -> result string;
  (* the exception os.remove raises on an existing file, if any *)
  remove_error : string -> option exn;
  (* os.name == "nt": the path separators of os.path.splitext *)
  os_is_nt : bool
}.

Inductive os_event :=
| Removed (path : string)
| RemoveFailed (path : string) (e : exn).

Record World := {
  fs : gmap string string;
  tmp_counter : nat;
  removals : list os_event
}.

Definition M (A : Type) : Type := World -> result A * World.

Definition ret {A} (a : A) : M A := fun w => (Ok a, w).

Definition bindM {A B} (m : M A) (k : A -> M B) : M B :=
  fun w =>
    match m w with
    | (Ok a, w') => k a w'
    | (Raise e, w') => (Raise e, w')
    end.

(** [try: m except Exception as e: h e] *)
Definition try_exceptM {A} (m : M A) (h : exn -> M A) : M A :=
  fun w =>
    match m w with
    | (Ok a, w') => (Ok a, w')
    | (Raise e, w') => h e w'
    end.

(** A computation of [multimodal_infer] on the files as they are now. *)
Definition with_fs {A} (f : gmap string string -> result A) : M A :=
  fun w => (f (fs w), w).

Variable senv : ServerEnv.

(** [tempfile.NamedTemporaryFile(delete=False, suffix=suffix)]: a new empty
    file; names are drawn from a counter. *)
Definition tmp_name (n : nat) (suffix : string) : string :=
  "/tmp/tmp" +:+ pretty n +:+ suffix.

Definition NamedTemporaryFile (suffix : string) : M string :=
  fun w =>
    let name := tmp_name (tmp_counter w) suffix in
    (Ok name,
     {| fs := <[name := ""]> (fs w);
        tmp_counter := S (tmp_counter w);
        removals := removals w |}).

(** [file.save(path)] *)
Definition save (file : FileStorage) (path : string) : M unit :=
  fun w =>
    (Ok tt,
     {| fs := <[path := stream file]> (fs w);
        tmp_counter := tmp_counter w;
        removals := removals w |}).

(** [os.remove(path)] *)
Definition os_remove (path : string) : M unit :=
  fun w =>
    match fs w !! path with
    | None =>
        let e := Exn "FileNotFoundError" ("No such file or directory: " +:+ path) in
        (Raise e,
         {| fs := fs w; tmp_counter := tmp_counter w;
            removals := removals w ++ [RemoveFailed path e] |})
    | Some _ =>
        match remove_error senv path with
        | Some e =>
            (Raise e,
             {| fs := fs w; tmp_counter := tmp_counter w;
                removals := removals w ++ [RemoveFailed path e] |})
        | None =>
            (Ok tt,
             {| fs := delete path (fs w); tmp_counter := tmp_counter w;
                removals := removals w ++ [Removed path] |})
        end
    end.

(** [try: os.remove(path) except Exception: pass] *)
Definition try_remove (path : string) : M unit :=
  try_exceptM (os_remove path) (fun _ => ret tt).

(** *** Helpers of the handler *)

(** [if not file]: absent, or without a file name. *)
Definition present (file : option FileStorage) : option FileStorage :=
  match file with
  | Some f =>
      match filename f with
      | Some name => if String.eqb name "" then None else Some f
      | None => None
      end
  | None => None
  end.

Fixpoint span {A} (p : A -> bool) (l : list A) : list A * list A :=
  match l with
  | x :: l' => if p x then let '(a, b) := span p l' in (x :: a, b) else ([], l)
  | [] => ([], [])
  end.

Definition is_sep (c : ascii) : bool :=
  Ascii.eqb c "/" || (os_is_nt senv && Ascii.eqb c "\").

(** [os.path.splitext(p)[1]]: from the last dot of the last path component,
    unless only dots come before it there. *)
Definition splitext_ext (p : string) : string :=
  let rcomponent := fst (span (fun c => negb (is_sep c)) (rev (String.list_ascii_of_string p))) in
  let '(rafter, rest) := span (fun c => negb (Ascii.eqb c ".")) rcomponent in
  match rest with
  | _dot :: rbefore =>
      if forallb (fun c => Ascii.eqb c ".") rbefore then ""
      else String.string_of_list_ascii ("."%char :: rev rafter)
  | [] => ""
  end.

(** [str.lower()], on ASCII letters. *)
Definition lower (s : string) : string :=
  String.string_of_list_ascii (map FloatParse.lower (String.list_ascii_of_string s)).

(** Lines 84-86: webm to wav. *)
Definition convert_webm (raw_voice_path wav_path : string) : M unit :=
  fun w =>
    match fs w !! raw_voice_path with
    | None =>
        (Raise (Exn "FileNotFoundError" ("No such file or directory: " +:+ raw_voice_path)), w)
    | Some content =>
        match from_file_webm senv content with
        | Raise e => (Raise e, w)
        | Ok audio =>
            match export_wav senv audio with
            | Raise e => (Raise e, w)
            | Ok wav =>
                (Ok tt,
                 {| fs := <[wav_path := wav]> (fs w);
                    tmp_counter := tmp_counter w;
                    removals := removals w |})
            end
        end
    end.

(** The conversion of these bytes raises [e]: pydub fails to decode them,
    or decodes them and fails to export the wav. *)
Definition transcoding_raises (content : string) (e : exn) : Prop :=
  from_file_webm senv content = Raise e \/
  exists audio, from_file_webm senv content = Ok audio /\
                export_wav senv audio = Raise e.

(** Lines 109-113: on failure the scaler is tried again on [[[0.0] * n]]. *)
Definition scale_voice (v_raw : Infer.matrix) : result (Infer.matrix (F:=F)) :=
  let scaler := Infer.voice_scaler (infer_env senv) in
  try_except (Infer.transform scaler v_raw)
    (fun _ =>
       let n := match Infer.n_features_in_ scaler with
                | Some m => m
                | None => Infer.ncols v_raw
                end in
       Infer.transform scaler [replicate (Z.to_nat n) (lit 0)]).

(** Lines 126-136: the caution of the HTTP shell. *)
Definition age_caution (age : option string) : option string :=
  match age with
  | Some s =>
      match py_float s with
      | Some a =>
          if lt_lit (F:=F) a 11 || gt_lit (F:=F) a 75 then
            Some ("⚠ Age = " +:+ Infer.str_float (infer_env senv) a +:+
                  ": model may be unreliable for kids under 11 or elders over 75; " +:+
                  "interpret result cautiously.")
          else None
      | None => None
      end
  | None => None
  end.

Definition json_opt_string (o : option string) : json :=
  match o with
  | Some s => JString s
  | None => JNull
  end.

(** Lines 102-159: inference, clean-up and the payload. *)
Definition infer_and_respond (age : option string)
    (spiral_path raw_voice_path final_voice_path : string) : M Response :=
  let ienv := infer_env senv in
  bindM (with_fs (fun fs => Infer.get_drawing_input ienv fs spiral_path)) (fun d_in =>
  bindM (with_fs (fun _ => Infer.drawing_predict ienv d_in)) (fun out =>
  bindM (with_fs (fun _ => index out 0)) (fun d_prob =>
  let expected := Infer.n_features_in_ (Infer.voice_scaler ienv) in
  bindM (with_fs (fun fs => Infer.extract_voice_from_wav ienv fs final_voice_path expected)) (fun v_raw =>
  bindM (with_fs (fun _ => scale_voice v_raw)) (fun v_scaled =>
  bindM (with_fs (fun _ => Infer.voice_prob ienv v_scaled)) (fun v_prob =>
  let draw_weight : F := lit 0.55 in
  let voice_weight : F := lit 0.45 in
  let final := Infer.combine draw_weight d_prob voice_weight v_prob in
  let confidence := Infer.confidence final in
  let prediction := Infer.decision final in
  let caution := age_caution age in
  bindM (try_remove spiral_path) (fun _ =>
  bindM (try_remove raw_voice_path) (fun _ =>
  bindM (if String.eqb final_voice_path raw_voice_path then ret tt
         else try_remove final_voice_path) (fun _ =>
  ret (jsonify
         [("prediction", JString prediction);
          ("combined_score", JNumber final);
          ("confidence", JNumber confidence);
          ("drawing_prob", JNumber d_prob);
          ("voice_prob", JNumber v_prob);
          ("caution", json_opt_string caution);
          ("extracted_voice_features", JArray (JNumber <$> concat v_raw))]
         200)))))))))).

(** The handler of [POST /predict]. *)
Definition predict (req : Request) : M Response :=
  let age := form req !! "age" in
  match present (files req !! "spiral_img") with
  | None => ret (jsonify [("error", JString "spiral_img is required")] 400)
  | Some spiral_file =>
      bindM (NamedTemporaryFile ".png") (fun spiral_path =>
      bindM (save spiral_file spiral_path) (fun _ =>
      match present (files req !! "voice_wav") with
      | None =>
          bindM (try_remove spiral_path) (fun _ =>
          ret (jsonify [("error", JString "voice_wav is required")] 400))
      | Some voice_file =>
          let original_name :=
            match filename voice_file with
            | Some name => if String.eqb name "" then "voice_input" else name
            | None => "voice_input"
            end in
          let ext := lower (splitext_ext original_name) in
          bindM (NamedTemporaryFile ext) (fun raw_voice_path =>
          bindM (save voice_file raw_voice_path) (fun _ =>
          if String.eqb ext ".webm" then
            bindM (NamedTemporaryFile ".wav") (fun wav_path =>
            (* the [try] covers the conversion only; [Some r] is the
               [return] of its handler *)
            bindM
              (try_exceptM
                 (bindM (convert_webm raw_voice_path wav_path) (fun _ => ret None))
                 (fun e =>
                    bindM (try_remove spiral_path) (fun _ =>
                    bindM (try_remove raw_voice_path) (fun _ =>
                    ret (Some (jsonify
                                 [("error",
                                   JString ("Failed to convert webm to wav: " +:+ exn_msg e))]
                                 500))))))
              (fun returned =>
                 match returned with
                 | Some r => ret r
                 | None => infer_and_respond age spiral_path raw_voice_path wav_path
                 end))
          else infer_and_respond age spiral_path raw_voice_path raw_voice_path))
      end))
  end.

(** *** Names for the steps of the handler *)

(** The world once [NamedTemporaryFile] has made [path] and [save] has
    written [content] to it, and once [NamedTemporaryFile] alone has made
    [path]. *)
Definition stored (path content : string) (w : World) : World :=
  {| fs := <[path := content]> (<[path := ""]> (fs w));
     tmp_counter := S (tmp_counter w);
     removals := removals w |}.

Definition created (path : string) (w : World) : World :=
  {| fs := <[path := ""]> (fs w);
     tmp_counter := S (tmp_counter w);
     removals := removals w |}.

(** [ext] of lines 72-73. *)
Definition upload_ext (voice_file : FileStorage) : string :=
  lower (splitext_ext
           match filename voice_file with
           | Some name => if String.eqb name "" then "voice_input" else name
           | None => "voice_input"
           end).

(** The body and status of lines 151-159. *)
Definition success_payload (age : option string) (d_prob v_prob : F)
    (features : list F) : Response :=
  let final := Infer.combine (lit 0.55) d_prob (lit 0.45) v_prob in
  jsonify
    [("prediction", JString (Infer.decision final));
     ("combined_score", JNumber final);
     ("confidence", JNumber (Infer.confidence final));
     ("drawing_prob", JNumber d_prob);
     ("voice_prob", JNumber v_prob);
     ("caution", json_opt_string (age_caution age));
     ("extracted_voice_features", JArray (JNumber <$> features))]
    200.

(** A path the handler made up, and the path of a logged removal. *)
Definition is_tmp (path : string) : Prop :=
  exists n suffix, path = tmp_name n suffix.

Definition removed_path (ev : os_event) : string :=
  match ev with
  | Removed path => path
  | RemoveFailed path _ => path
  end.

(** The handler touched its own temporary files only: every other path
    holds what it held, the counter did not go back, and the log grew by
    removals of temporary files. *)
Definition touched_tmp_only (w w' : World) : Prop :=
  (forall k, ~ is_tmp k -> fs w' !! k = fs w !! k) /\
  (tmp_counter w <= tmp_counter w')%nat /\
  exists evs, removals w' = (removals w ++ evs)%list /\
              Forall (fun ev => is_tmp (removed_path ev)) evs.

End WithFloat.
End Server.

(** ** A concrete installation *)

(** Collaborators with fixed answers, to run both shells on: an image model
    declaring 128x128x3 that answers [d], a 22-feature scaler, a classifier
    whose [predict_proba] row is [(1 - v, v)]. *)
Module Scenario.
Section WithFloat.

Context {F : Type} `{PyFloat F}.

Definition str_float (a : parsed) : string :=
  match a with
  | Finite (Qmake n 1) => pretty n +:+ ".0"
  | Finite _ => "<float>"
  | PosInf => "inf"
  | NegInf => "-inf"
  | NaN => "nan"
  end.

Definition scaler_of (tr : Infer.matrix -> result Infer.matrix) : Infer.Scaler F :=
  {| Infer.feature_names_in_ := None;
     Infer.n_features_in_ := Some 22%Z;
     Infer.transform := tr |}.

Definition env_of (d v : Q) (sc : Infer.Scaler F) : Infer.Env F :=
  {| Infer.decode_image := fun content =>
       if String.eqb content "" then None else Some (256%positive, 256%positive);
     Infer.input_shape := [DimNone; DimInt 128; DimInt 128; DimInt 3];
     Infer.drawing_predict := fun _ => Ok [lit d];
     Infer.read_sound := fun content =>
       if String.eqb content "" then Raise (Exn "PraatError" "Not an audio file.")
       else Ok {| Infer.sound_data := content |};
     Infer.to_pitch := fun _ =>
       Ok {| Infer.selected_frequency := Ok [lit 0; lit 118; lit 122; lit 0] |};
     Infer.harmonicity_mean := fun _ => Ok (lit 12.5);
     Infer.voice_scaler := sc;
     Infer.voice_model :=
       {| Infer.predict_proba := Some (fun _ => Ok [[fsub (lit 1) (lit v); lit v]]);
          Infer.predict := fun _ => Ok [lit v] |};
     Infer.str_float := str_float |}.

(** A scaler that accepts everything, and one that accepts only rows of
    zeros. *)
Definition lenient : Infer.Scaler F := scaler_of (fun m => Ok m).

Definition strict : Infer.Scaler F :=
  scaler_of (fun m =>
    if forallb (forallb (fun x => feqb x (lit 0))) m then Ok m
    else Raise (Exn "ValueError" "X does not have valid feature names")).

Definition env (d v : Q) : Infer.Env F := env_of d v lenient.


Definition senv_of (ienv : Infer.Env F) (webm : result Server.Audio) : Server.ServerEnv :=
  {| Server.infer_env := ienv;
     Server.from_file_webm := fun _ => webm;
     Server.export_wav := fun a => Ok (Server.audio_data a);
     Server.remove_error := fun _ => None;
     Server.os_is_nt := false |}.

Definition senv (d v : Q) : Server.ServerEnv :=
  senv_of (env d v) (Ok {| Server.audio_data := "RIFF" |}).

(** The same installation with a scaler fitted on named columns. *)
Definition env_named (d v : Q) (names : list string) : Infer.Env F :=
  env_of d v
    {| Infer.feature_names_in_ := Some names;
       Infer.n_features_in_ := Some (Z.of_nat (length names));
       Infer.transform := fun m => Ok m |}.

(** The files of a command-line run. *)
Definition disk : gmap string string :=
  <["spiral.png" := "PNG"]> (<["voice.wav" := "RIFF"]> ∅).

Definition upload (name content : string) : Server.FileStorage :=
  {| Server.filename := Some name; Server.stream := content |}.

Definition request (fields : list (string * string))
    (uploads : list (string * Server.FileStorage)) : Server.Request :=
  {| Server.form := list_to_map fields; Server.files := list_to_map uploads |}.

Definition world0 : Server.World :=
  {| Server.fs := ∅; Server.tmp_counter := 0; Server.removals := [] |}.

End WithFloat.
End Scenario.

(** * Properties *)

(** ** The score combiner *)

Section Combiner.

Local Open Scope Q_scope.









End Combiner.




(** The same run in binary64: weights 1.0 and probabilities 0.9 give a
    confidence above 1.0. *)
Lemma binary64_confidence_above_1 :
  PrimFloat.ltb (lit 1)
    (Infer.confidence (F:=float) (Infer.combine (lit 1) (lit 0.9) (lit 1) (lit 0.9))) = true.
Proof. vm_compute. reflexivity. Qed.

(** ** The age caution of the two shells *)

Section AgeCaution.

Local Open Scope Q_scope.

Variable env : Infer.Env Q.
Variable senv : Server.ServerEnv (F:=Q).



(** No age, or an age that is not a number: no caution, no error. *)
Lemma age_caution_absent :
  Infer.age_caution env None = None /\ Server.age_caution senv None = None.
Proof. done. Qed.

Lemma age_caution_unparseable (s : string) :
  py_float s = None ->
  Infer.age_caution env (Some s) = None /\ Server.age_caution senv (Some s) = None.
Proof. intros Hs. unfold Infer.age_caution, Server.age_caution. by rewrite Hs. Qed.



End AgeCaution.

(** C3 - For the age 15 the command-line shell (caution below 18 or above 80)
    attaches its caution text, and the HTTP shell (caution below 11 or above
    75) attaches none. *)
Theorem age_15_cli_caution_http_none
    (env : Infer.Env Q) (senv : Server.ServerEnv (F:=Q)) :
  Infer.age_caution env (Some "15") =
    Some ("⚠ Age = " +:+ Infer.str_float env (Finite 15) +:+
          ": model may be unreliable for very young/old people; interpret result cautiously.") /\
  Server.age_caution senv (Some "15") = None.
Proof. split; reflexivity. Qed.

(** The same two answers when the comparisons are binary64's. *)
Lemma age_15_binary64
    (env : Infer.Env float) (senv : Server.ServerEnv (F:=float)) :
  is_Some (Infer.age_caution env (Some "15")) /\
  Server.age_caution senv (Some "15") = None.
Proof. split; [eexists |]; reflexivity. Qed.

(** ** The voice feature extractor *)

Section VoiceFeatures.

Context {F : Type} `{PyFloat F}.

Variable env : Infer.Env F.
Variable fs : gmap string string.

Lemma base_feats_length snd pitch : length (Infer.base_feats env snd pitch) = 3%nat.
Proof. reflexivity. Qed.

Lemma pad_or_truncate_length (base : list F) (n : Z) :
  (0 <= n)%Z -> length (Infer.pad_or_truncate base n) = Z.to_nat n.
Proof.
  intros Hn. unfold Infer.pad_or_truncate, slice_to.
  destruct (Z.leb_spec n (Z.of_nat (length base))) as [Hle | Hgt].
  - destruct (Z.leb_spec 0 n); [| lia]. rewrite length_take. lia.
  - rewrite length_app, length_replicate. lia.
Qed.

Lemma pad_or_truncate_prefix (base : list F) (n : Z) :
  (0 <= n)%Z ->
  take (length base `min` Z.to_nat n) (Infer.pad_or_truncate base n) =
  take (length base `min` Z.to_nat n) base.
Proof.
  intros Hn. unfold Infer.pad_or_truncate, slice_to.
  destruct (Z.leb_spec n (Z.of_nat (length base))) as [Hle | Hgt].
  - destruct (Z.leb_spec 0 n); [| lia].
    rewrite take_take. f_equal. lia.
  - replace (length base `min` Z.to_nat n)%nat with (length base) by lia.
    by rewrite take_app_length, firstn_all.
Qed.

Lemma pad_or_truncate_zeros (base : list F) (n : Z) (i : nat) :
  (length base <= i < Z.to_nat n)%nat ->
  Infer.pad_or_truncate base n !! i = Some (lit 0).
Proof.
  intros Hi. unfold Infer.pad_or_truncate.
  destruct (Z.leb_spec n (Z.of_nat (length base))) as [Hle | Hgt]; [lia |].
  rewrite lookup_app_r by lia. apply lookup_replicate_2. lia.
Qed.

(** The width asked of the extractor by both shells is the scaler's. *)
Lemma target_width_fitted (N : Z) (nbase : nat) :
  Infer.n_features_in_ (Infer.voice_scaler env) = Some N ->
  (forall names, Infer.feature_names_in_ (Infer.voice_scaler env) = Some names ->
                 Z.of_nat (length names) = N) ->
  Infer.target_width env (Infer.n_features_in_ (Infer.voice_scaler env)) nbase = N.
Proof.
  intros HN Hnames. unfold Infer.target_width.
  destruct (Infer.feature_names_in_ _) as [names|]; [by apply Hnames |].
  rewrite HN. cbn [Infer.or_default]. by destruct (Z.eqb_spec N 0).
Qed.

Lemma extract_voice_from_wav_loaded wav snd pitch expected :
  Infer.parselmouth_Sound env fs wav = Ok snd ->
  Infer.to_pitch env snd = Ok pitch ->
  Infer.extract_voice_from_wav env fs wav expected =
    Ok [Infer.pad_or_truncate (Infer.base_feats env snd pitch)
          (Infer.target_width env expected 3)].
Proof.
  intros Hsnd Hpitch. unfold Infer.extract_voice_from_wav, mbind, result_bind.
  rewrite Hsnd. cbn [Py.bind]. rewrite Hpitch. reflexivity.
Qed.


(** A pitch analysis that raises is not caught either. *)
Lemma extract_voice_from_wav_no_pitch wav expected snd e :
  Infer.parselmouth_Sound env fs wav = Ok snd ->
  Infer.to_pitch env snd = Raise e ->
  Infer.extract_voice_from_wav env fs wav expected = Raise e.
Proof.
  intros Hsnd Hpitch. unfold Infer.extract_voice_from_wav, mbind, result_bind.
  rewrite Hsnd. cbn [Py.bind]. by rewrite Hpitch.
Qed.

(** An unvoiced recording (every frame 0 Hz) has no mean; its first feature
    is 0.0 as well. *)
Lemma base_feats_unvoiced snd pitch f0_arr :
  Infer.selected_frequency pitch = Ok f0_arr ->
  Infer.nanmean (Infer.where_zero_nan f0_arr) = None ->
  Infer.base_feats env snd pitch !! 0%nat = Some (lit 0).
Proof. intros Hf Hm. unfold Infer.base_feats. by rewrite Hf, Hm. Qed.

End VoiceFeatures.

(** C2 - For a scaler whose declared width is N, once the recording is loaded
    the extractor returns one row of exactly N elements: its first min(3, N)
    elements are the three base features and every element from position 3
    on is zero. *)
Theorem voice_vector_has_scaler_width {F : Type} `{PyFloat F}
    (env : Infer.Env F) (fs : gmap string string) (wav : string)
    (snd : Infer.Sound) (pitch : Infer.Pitch F) (N : Z) :
  Infer.parselmouth_Sound env fs wav = Ok snd ->
  Infer.to_pitch env snd = Ok pitch ->
  Infer.n_features_in_ (Infer.voice_scaler env) = Some N ->
  (0 <= N)%Z ->
  (forall names, Infer.feature_names_in_ (Infer.voice_scaler env) = Some names ->
                 Z.of_nat (length names) = N) ->
  let base := Infer.base_feats env snd pitch in
  exists x : list F,
    Infer.extract_voice_from_wav env fs wav
      (Infer.n_features_in_ (Infer.voice_scaler env)) = Ok [x] /\
    length base = 3%nat /\
    length x = Z.to_nat N /\
    take (3 `min` Z.to_nat N) x = take (3 `min` Z.to_nat N) base /\
    (forall i, (3 <= i < Z.to_nat N)%nat -> x !! i = Some (lit 0)).
Proof.
  intros Hsnd Hpitch HN Hpos Hnames base.
  eexists. split.
  { rewrite (extract_voice_from_wav_loaded env fs wav snd pitch _ Hsnd Hpitch).
    rewrite (target_width_fitted env N 3 HN Hnames). reflexivity. }
  split; [reflexivity |].
  split; [by apply pad_or_truncate_length |].
  split; [by apply (pad_or_truncate_prefix base N) |].
  intros i Hi. by apply pad_or_truncate_zeros.
Qed.

Lemma voice_vector_has_scaler_width_witness :
  exists x : list Q,
    Infer.extract_voice_from_wav (Scenario.env 0.8 0.2) Scenario.disk "voice.wav"
      (Some 22%Z) = Ok [x] /\
    length (Infer.base_feats (Scenario.env 0.8 0.2) {| Infer.sound_data := "RIFF" |}
              {| Infer.selected_frequency := Ok [0; 118; 122; 0]%Q |}) = 3%nat /\
    length x = 22%nat /\
    take 3 x = take 3 (Infer.base_feats (Scenario.env 0.8 0.2) {| Infer.sound_data := "RIFF" |}
                         {| Infer.selected_frequency := Ok [0; 118; 122; 0]%Q |}) /\
    (forall i, (3 <= i < 22)%nat -> x !! i = Some 0%Q).
Proof.
  exact (voice_vector_has_scaler_width (Scenario.env 0.8 0.2) Scenario.disk "voice.wav"
           {| Infer.sound_data := "RIFF" |}
           {| Infer.selected_frequency := Ok [0; 118; 122; 0]%Q |} 22
           eq_refl eq_refl eq_refl ltac:(lia)
           ltac:(intros names Hn; discriminate Hn)).
Defined.

(** Width 2 truncates and width 5 pads. *)
Example pad_or_truncate_samples :
  Infer.pad_or_truncate [7; 8; 9]%Q 2 = [7; 8]%Q /\
  Infer.pad_or_truncate [7; 8; 9]%Q 3 = [7; 8; 9]%Q /\
  Infer.pad_or_truncate [7; 8; 9]%Q 5 = [7; 8; 9; 0; 0]%Q /\
  Infer.pad_or_truncate [7; 8; 9]%Q 0 = @nil Q.
Proof. repeat split. Qed.




(** ** The drawing feature adapter *)

Section DrawingInput.

Context {F : Type} `{PyFloat F}.

Variable env : Infer.Env F.
Variable fs : gmap string string.

Lemma readable_or_unreadable path :
  Infer.readable env fs path \/ Infer.unreadable env fs path.
Proof.
  unfold Infer.readable, Infer.unreadable.
  destruct (fs !! path) as [content|] eqn:Hfs; [| by right; left].
  destruct (Infer.decode_image env content) as [[h w]|] eqn:Hd.
  - left. by exists content, h, w.
  - right. right. by exists content.
Qed.

Lemma unreadable_not_readable path :
  Infer.unreadable env fs path -> ~ Infer.readable env fs path.
Proof.
  intros [Hn | (c & Hc & Hd)] (c' & h & w & Hc' & Hd'); congruence.
Qed.

Lemma cv2_imread_unreadable path flag :
  Infer.unreadable env fs path -> Infer.cv2_imread env fs path flag = None.
Proof.
  unfold Infer.cv2_imread. intros [Hn | (c & Hc & Hd)].
  - by rewrite Hn.
  - by rewrite Hc, Hd.
Qed.

(** The fallback of the shape introspection. *)
Lemma target_shape_default (in_shape : list dim) :
  (exists i, (1 <= i <= 3)%nat /\ Infer.int_of_dim (in_shape !! i) = None) ->
  Infer.target_shape in_shape = (224, 224, 3)%Z.
Proof.
  intros (i & Hi & Hd). unfold Infer.target_shape.
  assert (i = 1 \/ i = 2 \/ i = 3)%nat as [-> | [-> | ->]] by lia;
    rewrite Hd; repeat case_match; done.
Qed.

Lemma get_drawing_input_unreadable path :
  Infer.unreadable env fs path ->
  Infer.get_drawing_input env fs path =
    Raise (Exn "FileNotFoundError" ("Image not found: " +:+ path)).
Proof.
  intros Hu. unfold Infer.get_drawing_input.
  destruct (Infer.target_shape _) as [[Hh W] C].
  by rewrite cv2_imread_unreadable.
Qed.

Lemma get_drawing_input_readable path (Hh W C : Z) :
  Infer.readable env fs path ->
  Infer.target_shape (Infer.input_shape env) = (Hh, W, C) ->
  (0 < Hh)%Z -> (0 < W)%Z ->
  exists arr,
    Infer.get_drawing_input env fs path = Ok arr /\
    shape arr = [1; Hh; W; if (C =? 3)%Z then 3 else 1]%Z.
Proof.
  intros (content & h & w & Hfs & Hdec) Hts HH HW.
  assert (Hsize : ((0 <? W) && (0 <? Hh))%Z = true).
  { apply andb_true_intro. split; by apply Z.ltb_lt. }
  unfold Infer.get_drawing_input, Infer.cv2_imread.
  rewrite Hts, Hfs, Hdec.
  destruct (Z.eqb_spec C 3) as [-> | HC3].
  - cbn. unfold Infer.cv2_resize. rewrite Hsize. cbn. eauto.
  - destruct (Z.eqb_spec C 1) as [-> | HC1].
    + cbn. unfold Infer.cv2_resize. rewrite Hsize. cbn. eauto.
    + cbn. unfold Infer.cv2_resize. rewrite Hsize. cbn. eauto.
Qed.

End DrawingInput.

(** C9 - An image path that cannot be read (no such file, or bytes OpenCV
    cannot decode) makes the adapter raise FileNotFoundError and nothing
    else; a readable image gives a tensor of shape (1, H, W, channels), H and
    W being the positive sizes the image model declares or the default
    224. *)
Theorem drawing_adapter_file_not_found_or_tensor {F : Type} `{PyFloat F}
    (env : Infer.Env F) (fs : gmap string string) (path : string) :
  (Infer.unreadable env fs path ->
   Infer.get_drawing_input env fs path =
     Raise (Exn "FileNotFoundError" ("Image not found: " +:+ path))) /\
  (Infer.readable env fs path ->
   forall Hh W C : Z,
     Infer.target_shape (Infer.input_shape env) = (Hh, W, C) ->
     (0 < Hh)%Z -> (0 < W)%Z ->
     exists arr,
       Infer.get_drawing_input env fs path = Ok arr /\
       shape arr = [1; Hh; W; if (C =? 3)%Z then 3 else 1]%Z).
Proof.
  split.
  - apply get_drawing_input_unreadable.
  - intros Hr Hh W C Hts HH HW. by apply get_drawing_input_readable.
Qed.

Lemma drawing_adapter_file_not_found_or_tensor_witness :
  Infer.get_drawing_input (F:=Q) (Scenario.env 0.8 0.2) Scenario.disk "nowhere.png" =
    Raise (Exn "FileNotFoundError" "Image not found: nowhere.png") /\
  exists arr,
    Infer.get_drawing_input (F:=Q) (Scenario.env 0.8 0.2) Scenario.disk "spiral.png" = Ok arr /\
    shape arr = [1; 128; 128; 3]%Z.
Proof.
  split.
  - apply (drawing_adapter_file_not_found_or_tensor (F:=Q) (Scenario.env 0.8 0.2)
             Scenario.disk "nowhere.png").
    left. reflexivity.
  - apply (proj2 (drawing_adapter_file_not_found_or_tensor (F:=Q) (Scenario.env 0.8 0.2)
                    Scenario.disk "spiral.png")
             (ex_intro _ "PNG" (ex_intro _ 256%positive (ex_intro _ 256%positive
                (conj eq_refl eq_refl))))
             128%Z 128%Z 3%Z eq_refl eq_refl eq_refl).
Defined.

(** A declared size of zero is passed on to [cv2.resize], which refuses it. *)
Example drawing_adapter_empty_size :
  Infer.get_drawing_input (F:=Q)
    {| Infer.decode_image := Infer.decode_image (Scenario.env 0.8 0.2);
       Infer.input_shape := [DimNone; DimInt 0; DimInt 128; DimInt 3];
       Infer.drawing_predict := Infer.drawing_predict (Scenario.env 0.8 0.2);
       Infer.read_sound := Infer.read_sound (Scenario.env 0.8 0.2);
       Infer.to_pitch := Infer.to_pitch (Scenario.env 0.8 0.2);
       Infer.harmonicity_mean := Infer.harmonicity_mean (Scenario.env 0.8 0.2);
       Infer.voice_scaler := Infer.voice_scaler (Scenario.env 0.8 0.2);
       Infer.voice_model := Infer.voice_model (Scenario.env 0.8 0.2);
       Infer.str_float := Infer.str_float (Scenario.env 0.8 0.2) |}
    Scenario.disk "spiral.png" =
  Raise (Exn "cv2.error" "(-215:Assertion failed) !dsize.empty() in function 'resize'").
Proof. vm_compute. reflexivity. Qed.

(** An image model that declares no usable shape gets the default size. *)
Example drawing_adapter_default_shape :
  Infer.target_shape [DimNone; DimNone; DimNone; DimInt 3] = (224, 224, 3)%Z /\
  Infer.target_shape [DimNone; DimInt 64; DimInt 32; DimInt 1] = (64, 32, 1)%Z /\
  Infer.target_shape [DimOther] = (224, 224, 3)%Z.
Proof. repeat split. Qed.

(** ** The scaler and its fallback *)

Section ScalerFallback.

Context {F : Type} `{PyFloat F}.

Variable senv : Server.ServerEnv (F:=F).

(** A transform that succeeds is used as it is, by both shells. *)
Lemma scale_voice_first_try v_raw v_scaled :
  Infer.transform (Infer.voice_scaler (Server.infer_env senv)) v_raw = Ok v_scaled ->
  Infer.scale_voice (Server.infer_env senv) v_raw = Ok v_scaled /\
  Server.scale_voice senv v_raw = Ok v_scaled.
Proof.
  intros Ht. unfold Infer.scale_voice, Server.scale_voice, try_except.
  by rewrite Ht.
Qed.

(** A scaler without [n_features_in_] is retried on a row as wide as the
    extracted one. *)
Lemma scale_voice_retry_unknown_width v_raw e :
  Infer.transform (Infer.voice_scaler (Server.infer_env senv)) v_raw = Raise e ->
  Infer.n_features_in_ (Infer.voice_scaler (Server.infer_env senv)) = None ->
  let zeros := [replicate (Z.to_nat (Infer.ncols v_raw)) (lit 0)] in
  Infer.scale_voice (Server.infer_env senv) v_raw = Infer.transform (Infer.voice_scaler (Server.infer_env senv)) zeros /\
  Server.scale_voice senv v_raw = Infer.transform (Infer.voice_scaler (Server.infer_env senv)) zeros.
Proof.
  intros Ht Hn zeros. unfold Infer.scale_voice, Server.scale_voice, try_except.
  rewrite Ht, Hn. split; [| done].
  unfold Infer.np_zeros_row.
  destruct (Z.ltb_spec (Infer.ncols v_raw) 0) as [Hneg | _]; [| done].
  unfold Infer.ncols in Hneg. destruct v_raw; lia.
Qed.

End ScalerFallback.

(** C7 - When the scaler's transform of the extracted vector raises, both
    shells catch the exception and call the transform again on one row of
    zeros whose width is the scaler's [n_features_in_]; the outcome of that
    second call is what the pipeline goes on with. *)
Theorem scaler_failure_retries_with_zeros {F : Type} `{PyFloat F}
    (senv : Server.ServerEnv (F:=F)) (v_raw : Infer.matrix) (e : exn) (N : Z) :
  let env := Server.infer_env senv in
  let sc := Infer.voice_scaler env in
  Infer.transform sc v_raw = Raise e ->
  Infer.n_features_in_ sc = Some N ->
  (0 <= N)%Z ->
  Infer.scale_voice env v_raw = Infer.transform sc [replicate (Z.to_nat N) (lit 0)] /\
  Server.scale_voice senv v_raw = Infer.transform sc [replicate (Z.to_nat N) (lit 0)].
Proof.
  intros env sc Ht Hn HN. subst env sc.
  unfold Infer.scale_voice, Server.scale_voice, try_except.
  rewrite Ht, Hn. split; [| done].
  unfold Infer.np_zeros_row. by destruct (Z.ltb_spec N 0) as [Hneg | _]; [lia |].
Qed.

Lemma scaler_failure_retries_with_zeros_witness :
  let senv := Scenario.senv_of (F:=Q) (Scenario.env_of 0.8 0.2 Scenario.strict)
                (Ok {| Server.audio_data := "RIFF" |}) in
  Infer.scale_voice (Server.infer_env senv) [[120; 12.5; 0]%Q] = Ok [replicate 22 0%Q] /\
  Server.scale_voice senv [[120; 12.5; 0]%Q] = Ok [replicate 22 0%Q].
Proof.
  exact (scaler_failure_retries_with_zeros
           (Scenario.senv_of (F:=Q) (Scenario.env_of 0.8 0.2 Scenario.strict)
              (Ok {| Server.audio_data := "RIFF" |}))
           [[120; 12.5; 0]%Q] (Exn "ValueError" "X does not have valid feature names") 22
           eq_refl eq_refl ltac:(lia)).
Defined.

(** With such a scaler both shells still answer: the request does not fail. *)
Example scaler_failure_does_not_fail_the_request :
  is_ok (Infer.multimodal_predict (F:=Q) (Scenario.env_of 0.8 0.2 Scenario.strict)
           Scenario.disk "spiral.png" "voice.wav" None
           Infer.default_draw_weight Infer.default_voice_weight) = true /\
  (Server.status <$>
     (match fst (Server.predict
                   (Scenario.senv_of (F:=Q) (Scenario.env_of 0.8 0.2 Scenario.strict)
                      (Ok {| Server.audio_data := "RIFF" |}))
                   (Scenario.request []
                      [("spiral_img", Scenario.upload "s.png" "PNG");
                       ("voice_wav", Scenario.upload "v.wav" "RIFF")])
                   Scenario.world0) with
      | Ok r => Some r
      | Raise _ => None
      end)) = Some 200%Z.
Proof. split; vm_compute; reflexivity. Qed.

(** ** The handler of POST /predict *)

Section Handler.

Context {F : Type} `{PyFloat F}.

Variable senv : Server.ServerEnv (F:=F).

(** [try: os.remove(p) except Exception: pass] never raises; it logs one
    attempt and changes nothing else but the file itself. *)
Lemma try_remove_spec (p : string) (w : Server.World) :
  exists w',
    Server.try_remove senv p w = (Ok tt, w') /\
    Server.tmp_counter w' = Server.tmp_counter w /\
    match Server.fs w !! p, Server.remove_error senv p with
    | Some _, None =>
        Server.fs w' = delete p (Server.fs w) /\
        Server.removals w' = (Server.removals w ++ [Server.Removed p])%list
    | Some _, Some e =>
        Server.fs w' = Server.fs w /\
        Server.removals w' = (Server.removals w ++ [Server.RemoveFailed p e])%list
    | None, _ =>
        Server.fs w' = Server.fs w /\
        exists e, Server.removals w' = (Server.removals w ++ [Server.RemoveFailed p e])%list
    end.
Proof.
  unfold Server.try_remove, Server.try_exceptM, Server.os_remove, Server.ret.
  destruct (Server.fs w !! p) as [content|].
  - destruct (Server.remove_error senv p) as [e|]; eexists; cbn; eauto.
  - eexists. cbn. eauto.
Qed.

Lemma try_remove_ok (p : string) (w : Server.World) :
  fst (Server.try_remove senv p w) = Ok tt.
Proof. destruct (try_remove_spec p w) as (w' & -> & _). done. Qed.

End Handler.

(** C5 - A request whose upload has no [spiral_img] field is answered with
    status 400 and the body {"error": "spiral_img is required"}; nothing is
    written or removed. *)
Theorem missing_spiral_img_is_400 {F : Type} `{PyFloat F}
    (senv : Server.ServerEnv (F:=F)) (req : Server.Request) (w : Server.World) :
  Server.files req !! "spiral_img" = None ->
  Server.predict senv req w =
    (Ok {| Server.body := Server.JObject [("error", Server.JString "spiral_img is required")];
           Server.status := 400 |},
     w).
Proof.
  intros Hnone. unfold Server.predict. rewrite Hnone. reflexivity.
Qed.

Lemma missing_spiral_img_is_400_witness :
  Server.predict (F:=Q) (Scenario.senv 0.8 0.2)
    (Scenario.request [("age", "40")] [("voice_wav", Scenario.upload "v.wav" "RIFF")])
    Scenario.world0 =
  (Ok {| Server.body := Server.JObject [("error", Server.JString "spiral_img is required")];
         Server.status := 400 |},
   Scenario.world0).
Proof.
  apply (missing_spiral_img_is_400 (F:=Q) (Scenario.senv 0.8 0.2)
           (Scenario.request [("age", "40")] [("voice_wav", Scenario.upload "v.wav" "RIFF")])
           Scenario.world0).
  reflexivity.
Defined.

(** A [spiral_img] part without a file name counts as missing too. *)
Example unnamed_spiral_img_is_400 :
  fst (Server.predict (F:=Q) (Scenario.senv 0.8 0.2)
         (Scenario.request [] [("spiral_img", Scenario.upload "" "PNG");
                               ("voice_wav", Scenario.upload "v.wav" "RIFF")])
         Scenario.world0) =
  Ok {| Server.body := Server.JObject [("error", Server.JString "spiral_img is required")];
        Server.status := 400 |}.
Proof. vm_compute. reflexivity. Qed.

(** C10 - A request with a [spiral_img] upload and no [voice_wav] field is
    answered with status 400 and {"error": "voice_wav is required"}, after
    one [os.remove] of the spiral image's temporary file: when the removal
    succeeds the file is gone, when it raises the error is dropped and the
    answer is the same. *)
Theorem missing_voice_wav_removes_spiral_file {F : Type} `{PyFloat F}
    (senv : Server.ServerEnv (F:=F)) (req : Server.Request) (w : Server.World)
    (spiral_file : Server.FileStorage) :
  Server.present (Server.files req !! "spiral_img") = Some spiral_file ->
  Server.files req !! "voice_wav" = None ->
  let spiral_path := Server.tmp_name (Server.tmp_counter w) ".png" in
  exists w',
    Server.predict senv req w =
      (Ok {| Server.body := Server.JObject [("error", Server.JString "voice_wav is required")];
             Server.status := 400 |},
       w') /\
    match Server.remove_error senv spiral_path with
    | None =>
        Server.removals w' = (Server.removals w ++ [Server.Removed spiral_path])%list /\
        Server.fs w' = delete spiral_path (Server.fs w)
    | Some e =>
        Server.removals w' = (Server.removals w ++ [Server.RemoveFailed spiral_path e])%list /\
        Server.fs w' = <[spiral_path := Server.stream spiral_file]> (Server.fs w)
    end.
Proof.
  intros Hspiral Hvoice spiral_path.
  unfold Server.predict. rewrite Hspiral, Hvoice. cbn [Server.present].
  unfold Server.bindM at 1. unfold Server.NamedTemporaryFile. fold spiral_path.
  unfold Server.bindM at 1. unfold Server.save.
  unfold Server.bindM.
  match goal with
  | |- context [Server.try_remove senv spiral_path ?w1] =>
      destruct (try_remove_spec senv spiral_path w1) as (w' & Hrm & _ & Hw')
  end.
  rewrite Hrm. exists w'. split; [reflexivity |].
  cbn [Server.fs Server.removals] in Hw'.
  rewrite lookup_insert_eq in Hw'.
  destruct (Server.remove_error senv spiral_path) as [e|].
  - destruct Hw' as [Hfs Hlog]. rewrite Hfs, Hlog. by rewrite insert_insert_eq.
  - destruct Hw' as [Hfs Hlog]. rewrite Hfs, Hlog. split; [done |].
    by rewrite insert_insert_eq, delete_insert_eq.
Qed.

Lemma missing_voice_wav_removes_spiral_file_witness :
  exists w',
    Server.predict (F:=Q) (Scenario.senv 0.8 0.2)
      (Scenario.request [] [("spiral_img", Scenario.upload "s.png" "PNG")])
      Scenario.world0 =
      (Ok {| Server.body := Server.JObject [("error", Server.JString "voice_wav is required")];
             Server.status := 400 |},
       w') /\
    Server.removals w' = [Server.Removed "/tmp/tmp0.png"] /\
    Server.fs w' = delete "/tmp/tmp0.png" (∅ : gmap string string).
Proof.
  exact (missing_voice_wav_removes_spiral_file (F:=Q) (Scenario.senv 0.8 0.2)
           (Scenario.request [] [("spiral_img", Scenario.upload "s.png" "PNG")])
           Scenario.world0 (Scenario.upload "s.png" "PNG") eq_refl eq_refl).
Defined.

Section Transcoding.

Context {F : Type} `{PyFloat F}.

Variable senv : Server.ServerEnv (F:=F).

Lemma last_char_app (a b : string) :
  b <> "" -> last_char (a +:+ b) = last_char b.
Proof.
  intros Hb. induction a as [| c a IH]; [done |].
  change (last_char (String c a +:+ b))
    with (match a +:+ b with
          | "" => Some c
          | String _ _ => last_char (a +:+ b)
          end).
  destruct (a +:+ b) eqn:E; [| done].
  destruct a; [| done]. cbn in E. by destruct Hb.
Qed.

(** Temporary files with different last characters are different files. *)
Lemma tmp_name_ne (n m : nat) (s t : string) :
  s <> "" -> t <> "" -> last_char s <> last_char t ->
  Server.tmp_name n s <> Server.tmp_name m t.
Proof.
  intros Hs Ht Hne Heq. apply Hne. unfold Server.tmp_name in Heq.
  apply (f_equal last_char) in Heq.
  assert (Hnonempty : forall (k : nat) (u : string), u <> "" -> pretty k +:+ u <> "").
  { intros k u Hu E. destruct (pretty k); cbn in E; [by apply Hu | discriminate]. }
  rewrite (last_char_app _ (pretty n +:+ s)) in Heq by by apply Hnonempty.
  rewrite (last_char_app _ (pretty m +:+ t)) in Heq by by apply Hnonempty.
  by rewrite !last_char_app in Heq.
Qed.

Lemma convert_webm_raises raw wav w content e :
  Server.fs w !! raw = Some content ->
  Server.transcoding_raises senv content e ->
  Server.convert_webm senv raw wav w = (Raise e, w).
Proof.
  intros Hraw Hfail. unfold Server.convert_webm. rewrite Hraw.
  destruct Hfail as [Hdec | (audio & Hdec & Hexp)].
  - by rewrite Hdec.
  - by rewrite Hdec, Hexp.
Qed.

Lemma present_Some (o : option Server.FileStorage) f :
  Server.present o = Some f ->
  o = Some f /\ exists name, Server.filename f = Some name /\ String.eqb name "" = false.
Proof.
  unfold Server.present. destruct o as [g|]; [| done].
  destruct (Server.filename g) as [name|] eqn:Hname; [| done].
  destruct (String.eqb name "") eqn:E; [done |].
  intros [= ->]. eauto.
Qed.

End Transcoding.

(** C6 - A request whose voice upload has the extension .webm and whose
    conversion to wav raises is answered with status 500 and the body
    {"error": "Failed to convert webm to wav: <reason>"}; the handler
    returns, no exception leaves it. *)
Theorem webm_transcode_failure_is_500 {F : Type} `{PyFloat F}
    (senv : Server.ServerEnv (F:=F)) (req : Server.Request) (w : Server.World)
    (spiral_file voice_file : Server.FileStorage) (name : string) (e : exn) :
  Server.present (Server.files req !! "spiral_img") = Some spiral_file ->
  Server.present (Server.files req !! "voice_wav") = Some voice_file ->
  Server.filename voice_file = Some name ->
  Server.lower (Server.splitext_ext senv name) = ".webm" ->
  Server.transcoding_raises senv (Server.stream voice_file) e ->
  exists w',
    Server.predict senv req w =
      (Ok {| Server.body :=
               Server.JObject
                 [("error", Server.JString ("Failed to convert webm to wav: " +:+ exn_msg e))];
             Server.status := 500 |},
       w').
Proof.
  intros Hspiral Hvoice Hname Hext Hfail.
  destruct (present_Some _ _ Hvoice) as (_ & name' & Hname' & Hne).
  rewrite Hname in Hname'. injection Hname' as <-.
  unfold Server.predict. rewrite Hspiral, Hvoice, Hname, Hne, Hext.
  cbn [String.eqb Ascii.eqb Bool.eqb].
  unfold Server.bindM at 1. unfold Server.NamedTemporaryFile at 1.
  unfold Server.bindM at 1. unfold Server.save at 1.
  unfold Server.bindM at 1. unfold Server.NamedTemporaryFile at 1.
  unfold Server.bindM at 1. unfold Server.save at 1.
  unfold Server.bindM at 1. unfold Server.NamedTemporaryFile at 1.
  cbn [Server.fs Server.tmp_counter Server.removals].
  set (spiral_path := Server.tmp_name (Server.tmp_counter w) ".png").
  set (raw_voice_path := Server.tmp_name (S (Server.tmp_counter w)) ".webm").
  set (wav_path := Server.tmp_name (S (S (Server.tmp_counter w))) ".wav").
  match goal with |- context [Server.bindM _ _ ?w0] => set (w5 := w0) end.
  assert (Hraw : Server.fs w5 !! raw_voice_path = Some (Server.stream voice_file)).
  { subst w5. cbn [Server.fs].
    rewrite lookup_insert_ne by (by apply tmp_name_ne).
    apply lookup_insert_eq. }
  unfold Server.bindM at 1. unfold Server.try_exceptM. unfold Server.bindM at 1.
  rewrite (convert_webm_raises senv raw_voice_path wav_path w5 _ e Hraw Hfail).
  unfold Server.bindM.
  destruct (try_remove_spec senv spiral_path w5) as (w6 & -> & _).
  destruct (try_remove_spec senv raw_voice_path w6) as (w7 & -> & _).
  by exists w7.
Qed.

Lemma webm_transcode_failure_is_500_witness :
  exists w',
    Server.predict (F:=Q)
      (Scenario.senv_of (Scenario.env 0.8 0.2)
         (Raise (Exn "CouldntDecodeError" "Decoding failed. ffmpeg returned error code: 1")))
      (Scenario.request []
         [("spiral_img", Scenario.upload "s.png" "PNG");
          ("voice_wav", Scenario.upload "take 1.WEBM" "not a webm")])
      Scenario.world0 =
      (Ok {| Server.body :=
               Server.JObject
                 [("error",
                   Server.JString
                     "Failed to convert webm to wav: Decoding failed. ffmpeg returned error code: 1")];
             Server.status := 500 |},
       w').
Proof.
  exact (webm_transcode_failure_is_500 (F:=Q)
           (Scenario.senv_of (Scenario.env 0.8 0.2)
              (Raise (Exn "CouldntDecodeError" "Decoding failed. ffmpeg returned error code: 1")))
           (Scenario.request []
              [("spiral_img", Scenario.upload "s.png" "PNG");
               ("voice_wav", Scenario.upload "take 1.WEBM" "not a webm")])
           Scenario.world0
           (Scenario.upload "s.png" "PNG") (Scenario.upload "take 1.WEBM" "not a webm")
           "take 1.WEBM"
           (Exn "CouldntDecodeError" "Decoding failed. ffmpeg returned error code: 1")
           eq_refl eq_refl eq_refl eq_refl (or_introl eq_refl)).
Defined.

(** After that answer the two uploads are removed; the empty wav file made
    for the conversion stays on disk. *)
Example webm_transcode_failure_leaves_wav_file :
  let w' := snd (Server.predict (F:=Q)
                   (Scenario.senv_of (Scenario.env 0.8 0.2)
                      (Raise (Exn "CouldntDecodeError" "Decoding failed.")))
                   (Scenario.request []
                      [("spiral_img", Scenario.upload "s.png" "PNG");
                       ("voice_wav", Scenario.upload "v.webm" "not a webm")])
                   Scenario.world0) in
  Server.removals w' = [Server.Removed "/tmp/tmp0.png"; Server.Removed "/tmp/tmp1.webm"] /\
  Server.fs w' !! "/tmp/tmp0.png" = None /\
  Server.fs w' !! "/tmp/tmp1.webm" = None /\
  Server.fs w' !! "/tmp/tmp2.wav" = Some "".
Proof. vm_compute. done. Qed.

(** [os.path.splitext(name)[1].lower()] on some upload names. *)
Example splitext_samples :
  let ext := fun name =>
    Server.lower (Server.splitext_ext (Scenario.senv (F:=Q) 0.8 0.2) name) in
  ext "voice.webm" = ".webm" /\ ext "a.b/VOICE.WebM" = ".webm" /\
  ext "voice.wav" = ".wav" /\ ext "voice" = "" /\ ext ".webm" = "" /\
  ext "dir.d/voice" = "" /\ ext "..webm" = "" /\ ext "a..webm" = ".webm" /\
  ext "archive.tar.gz" = ".gz".
Proof. vm_compute. done. Qed.

(** ** The payload of a successful request *)

Section Payload.

Context {F : Type} `{PyFloat F}.

Variable senv : Server.ServerEnv (F:=F).


End Payload.

Section PredictPayload.

Context {F : Type} `{PyFloat F}.

Variable senv : Server.ServerEnv (F:=F).


End PredictPayload.

Section EndToEnd.

Local Open Scope Q_scope.



End EndToEnd.



(** The same run in binary64, as CPython computes it: the combined score is
    the double written 0.53, the decision is "Parkinson", and the confidence
    is 0.06000000000000005, eight units in the last place above the double
    written 0.06. *)
Lemma end_to_end_08_02_binary64 :
  exists r : Infer.Report float,
    Infer.multimodal_predict (Scenario.env 0.8 0.2) Scenario.disk "spiral.png" "voice.wav"
      None Infer.default_draw_weight Infer.default_voice_weight = Ok r /\
    Infer.r_combined r = lit 0.53 /\
    Infer.r_decision r = "Parkinson" /\
    Infer.r_confidence r = 0x1.eb851eb851ecp-5%float /\
    lit 0.06 = 0x1.eb851eb851eb8p-5%float /\
    PrimFloat.ltb (PrimFloat.abs (PrimFloat.sub (Infer.r_confidence r) (lit 0.06)))
      0x1p-53%float = true.
Proof. eexists. split; [vm_compute; reflexivity |]. vm_compute. done. Qed.

(** * Further properties of the two files *)

(** ** [get_drawing_input] *)

(** X1 - For a readable image and positive target sizes the adapter reads
    colour exactly when the model declares 3 channels, resizes to (W, H),
    divides by 255 and adds the batch axis (for a declared single channel,
    after re-slicing channel 0); neither [cv2.cvtColor] branch of lines 42-45
    is ever taken. *)
Theorem drawing_adapter_never_converts_colour {F : Type} `{PyFloat F}
    (env : Infer.Env F) (fs : gmap string string) (path content : string)
    (h w : positive) (Hh W C : Z) :
  fs !! path = Some content ->
  Infer.decode_image env content = Some (h, w) ->
  Infer.target_shape (Infer.input_shape env) = (Hh, W, C) ->
  (0 < Hh)%Z -> (0 < W)%Z ->
  let flag := if (C =? 3)%Z then IMREAD_COLOR else IMREAD_GRAYSCALE in
  let scaled := ImgToArray (Scaled255 (Resized (Decoded content flag) W Hh)) in
  exists arr,
    Infer.get_drawing_input env fs path = Ok arr /\
    pixels_of arr =
      if (C =? 1)%Z then ExpandDims (ExpandDims (Channel0 scaled) (-1)) 0
      else ExpandDims scaled 0.
Proof.
  intros Hfs Hdec Hts HH HW flag scaled. subst flag scaled.
  assert (Hsize : ((0 <? W) && (0 <? Hh))%Z = true).
  { apply andb_true_intro. split; by apply Z.ltb_lt. }
  unfold Infer.get_drawing_input, Infer.cv2_imread.
  rewrite Hts, Hfs, Hdec.
  destruct (Z.eqb_spec C 3) as [-> | HC3].
  - cbn. unfold Infer.cv2_resize. rewrite Hsize. cbn. eauto.
  - destruct (Z.eqb_spec C 1) as [-> | HC1].
    + cbn. unfold Infer.cv2_resize. rewrite Hsize. cbn. eauto.
    + cbn. unfold Infer.cv2_resize. rewrite Hsize. cbn. eauto.
Qed.

Lemma drawing_adapter_never_converts_colour_witness :
  exists arr,
    Infer.get_drawing_input (F:=Q) (Scenario.env 0.8 0.2) Scenario.disk "spiral.png" = Ok arr /\
    pixels_of arr =
      ExpandDims (ImgToArray (Scaled255 (Resized (Decoded "PNG" IMREAD_COLOR) 128 128))) 0.
Proof.
  exact (drawing_adapter_never_converts_colour (F:=Q) (Scenario.env 0.8 0.2) Scenario.disk
           "spiral.png" "PNG" 256 256 128 128 3 eq_refl eq_refl eq_refl eq_refl eq_refl).
Defined.

(** X2 - An unreadable image stops the command-line pipeline with
    FileNotFoundError before the recording is looked at: the answer is the
    same whatever the recording, the age and the weights are. *)
Theorem cli_unreadable_image_raises_first {F : Type} `{PyFloat F}
    (env : Infer.Env F) (fs : gmap string string) (img wav : string)
    (age : option string) (w1 w2 : F) :
  Infer.unreadable env fs img ->
  Infer.multimodal_predict env fs img wav age w1 w2 =
    Raise (Exn "FileNotFoundError" ("Image not found: " +:+ img)).
Proof.
  intros Hu. unfold Infer.multimodal_predict, mbind, result_bind.
  by rewrite (get_drawing_input_unreadable env fs img Hu).
Qed.

Lemma cli_unreadable_image_raises_first_witness :
  Infer.multimodal_predict (F:=Q) (Scenario.env 0.8 0.2) Scenario.disk
    "nowhere.png" "nowhere.wav" (Some "abc") 0.55%Q 0.45%Q =
  Raise (Exn "FileNotFoundError" "Image not found: nowhere.png").
Proof.
  apply (cli_unreadable_image_raises_first (F:=Q) (Scenario.env 0.8 0.2) Scenario.disk
           "nowhere.png" "nowhere.wav" (Some "abc") 0.55%Q 0.45%Q).
  left. reflexivity.
Defined.

(** ** [extract_voice_from_wav] *)

Section VoiceFeaturesMore.

Context {F : Type} `{PyFloat F}.

Variable env : Infer.Env F.
Variable fs : gmap string string.

Lemma extract_voice_from_wav_width_only wav e1 e2 :
  Infer.target_width env e1 3%nat = Infer.target_width env e2 3%nat ->
  Infer.extract_voice_from_wav env fs wav e1 = Infer.extract_voice_from_wav env fs wav e2.
Proof.
  intros Hw. unfold Infer.extract_voice_from_wav, mbind, result_bind.
  destruct (Infer.parselmouth_Sound env fs wav) as [snd|]; [cbn [Py.bind] | done].
  destruct (Infer.to_pitch env snd) as [pitch|]; [cbn [Py.bind] | done].
  change (length (Infer.base_feats env snd pitch)) with 3%nat. by rewrite Hw.
Qed.



End VoiceFeaturesMore.

(** X3 - The [expected_n_features] argument is ignored when the scaler has
    [feature_names_in_], and an argument of 0 counts as no argument. *)
Theorem expected_n_features_precedence {F : Type} `{PyFloat F}
    (env : Infer.Env F) (fs : gmap string string) (wav : string) :
  Infer.extract_voice_from_wav env fs wav (Some 0%Z) =
    Infer.extract_voice_from_wav env fs wav None /\
  (forall names e1 e2,
     Infer.feature_names_in_ (Infer.voice_scaler env) = Some names ->
     Infer.extract_voice_from_wav env fs wav e1 =
       Infer.extract_voice_from_wav env fs wav e2).
Proof.
  split.
  - apply extract_voice_from_wav_width_only. unfold Infer.target_width.
    by destruct (Infer.feature_names_in_ _).
  - intros names e1 e2 Hn. apply extract_voice_from_wav_width_only.
    unfold Infer.target_width. by rewrite Hn.
Qed.

Lemma expected_n_features_precedence_witness :
  Infer.extract_voice_from_wav (F:=Q) (Scenario.env_named 0.8 0.2 ["f0"; "hnr"])
    Scenario.disk "voice.wav" (Some 22%Z) =
  Infer.extract_voice_from_wav (F:=Q) (Scenario.env_named 0.8 0.2 ["f0"; "hnr"])
    Scenario.disk "voice.wav" None.
Proof.
  exact (proj2 (expected_n_features_precedence (F:=Q)
                  (Scenario.env_named 0.8 0.2 ["f0"; "hnr"]) Scenario.disk "voice.wav")
           ["f0"; "hnr"] (Some 22%Z) None eq_refl).
Defined.

(** X4 - A vector that already has the width asked for is passed through
    unchanged, so fitting to a width twice is the same as fitting once. *)
Theorem pad_or_truncate_fixes_fitted_rows {F : Type} `{PyFloat F}
    (base : list F) (n : Z) :
  (0 <= n)%Z ->
  (Z.of_nat (length base) = n -> Infer.pad_or_truncate base n = base) /\
  Infer.pad_or_truncate (Infer.pad_or_truncate base n) n = Infer.pad_or_truncate base n.
Proof.
  intros Hn.
  assert (Hfix : forall x : list F,
             Z.of_nat (length x) = n -> Infer.pad_or_truncate x n = x).
  { intros x Hx. unfold Infer.pad_or_truncate, slice_to.
    destruct (Z.leb_spec n (Z.of_nat (length x))); [| lia].
    destruct (Z.leb_spec 0 n); [| lia].
    apply take_ge. lia. }
  split; [apply Hfix |].
  apply Hfix. rewrite pad_or_truncate_length by done. lia.
Qed.

Lemma pad_or_truncate_fixes_fitted_rows_witness :
  Infer.pad_or_truncate (Infer.pad_or_truncate [7; 8; 9]%Q 5) 5 =
  Infer.pad_or_truncate [7; 8; 9]%Q 5.
Proof.
  exact (proj2 (pad_or_truncate_fixes_fitted_rows [7; 8; 9]%Q 5 ltac:(lia))).
Defined.



Section MeanOfVoiced.

Local Open Scope Q_scope.



End MeanOfVoiced.



(** ** The scaler fallback and the classifier *)

(** X7 - The two shells scale a feature row the same way, first try and
    fallback alike, whenever the scaler's [n_features_in_] is absent or not
    negative; only [np.zeros((1, n))] against [[[0.0] * n]] for a negative n
    could tell them apart. *)
Theorem shells_scale_alike {F : Type} `{PyFloat F}
    (senv : Server.ServerEnv (F:=F)) (v_raw : Infer.matrix) :
  (forall N, Infer.n_features_in_ (Infer.voice_scaler (Server.infer_env senv)) = Some N ->
             (0 <= N)%Z) ->
  Infer.scale_voice (Server.infer_env senv) v_raw = Server.scale_voice senv v_raw.
Proof.
  intros Hwidth. unfold Infer.scale_voice, Server.scale_voice, try_except.
  destruct (Infer.transform _ v_raw) as [v_scaled | e]; [done |].
  unfold Infer.np_zeros_row.
  destruct (Infer.n_features_in_ _) as [N|] eqn:HN.
  - specialize (Hwidth N eq_refl). by destruct (Z.ltb_spec N 0); [lia |].
  - destruct (Z.ltb_spec (Infer.ncols v_raw) 0) as [Hneg | _]; [| done].
    unfold Infer.ncols in Hneg. destruct v_raw; lia.
Qed.

Lemma shells_scale_alike_witness :
  Infer.scale_voice
    (Server.infer_env (Scenario.senv_of (F:=Q) (Scenario.env_of 0.8 0.2 Scenario.strict)
                         (Ok {| Server.audio_data := "RIFF" |})))
    [[120; 12.5; 0]%Q] =
  Server.scale_voice
    (Scenario.senv_of (F:=Q) (Scenario.env_of 0.8 0.2 Scenario.strict)
       (Ok {| Server.audio_data := "RIFF" |}))
    [[120; 12.5; 0]%Q].
Proof.
  apply (shells_scale_alike
           (Scenario.senv_of (F:=Q) (Scenario.env_of 0.8 0.2 Scenario.strict)
              (Ok {| Server.audio_data := "RIFF" |}))
           [[120; 12.5; 0]%Q]).
  intros N [= <-]. lia.
Defined.

Section VoiceProb.

Context {F : Type} `{PyFloat F}.

Lemma mapM_result_cons {A B} (f : A -> result B) (x : A) (l : list A) :
  mapM f (x :: l) =
  match f x with
  | Ok y => match mapM f l with
            | Ok k => Ok (y :: k)
            | Raise e => Raise e
            end
  | Raise e => Raise e
  end.
Proof. reflexivity. Qed.

Lemma column_1_ok (m : list (list F)) :
  Forall (fun row => (2 <= length row)%nat) m ->
  exists col,
    mapM (M:=result) (fun row => index row 1) m = Ok col /\
    Forall2 (fun row p => row !! 1%nat = Some p) m col.
Proof.
  induction 1 as [| row rows Hrow _ (col & Hcol & Hall)].
  - by exists [].
  - destruct (row !! 1%nat) as [p|] eqn:Hp.
    2: { apply lookup_ge_None in Hp. lia. }
    exists (p :: col). split; [| by constructor].
    rewrite mapM_result_cons, Hcol. unfold index. by rewrite Hp.
Qed.

Lemma column_1_short (m : list (list F)) :
  Exists (fun row => (length row < 2)%nat) m ->
  mapM (M:=result) (fun row => index row 1) m =
    Raise (Exn "IndexError" "index out of range").
Proof.
  induction m as [| row rows IH]; intros Hex; [by apply Exists_nil in Hex |].
  rewrite mapM_result_cons. unfold index at 1.
  destruct (row !! 1%nat) as [p|] eqn:Hp; [| done].
  apply Exists_cons in Hex as [Hshort | Hrest].
  - apply lookup_lt_Some in Hp. lia.
  - by rewrite IH.
Qed.

Lemma voice_prob_with_proba (env : Infer.Env F) v_scaled proba :
  Infer.predict_proba (Infer.voice_model env) = Some proba ->
  Infer.voice_prob env v_scaled =
  match proba v_scaled with
  | Ok m => match mapM (M:=result) (fun row => index row 1) m with
            | Ok col => index col 0
            | Raise e => Raise e
            end
  | Raise e => Raise e
  end.
Proof. intros Hproba. unfold Infer.voice_prob. by rewrite Hproba. Qed.

End VoiceProb.

(** X8 - With a classifier that has [predict_proba], the voice probability
    is column 1 of the first row it returns and [predict] is not consulted;
    an answer with no row, or with a row of fewer than two columns, raises
    IndexError. *)
Theorem voice_prob_is_column_1 {F : Type} `{PyFloat F}
    (env : Infer.Env F) (v_scaled : Infer.matrix)
    (proba : Infer.matrix -> result Infer.matrix) (m : Infer.matrix) :
  Infer.predict_proba (Infer.voice_model env) = Some proba ->
  proba v_scaled = Ok m ->
  (forall row rows, m = row :: rows ->
     Forall (fun r => (2 <= length r)%nat) m ->
     exists p, row !! 1%nat = Some p /\ Infer.voice_prob env v_scaled = Ok p) /\
  (m = [] \/ Exists (fun r => (length r < 2)%nat) m ->
   Infer.voice_prob env v_scaled = Raise (Exn "IndexError" "index out of range")).
Proof.
  intros Hproba Hm. rewrite (voice_prob_with_proba env v_scaled proba Hproba), Hm.
  split.
  - intros row rows -> Hall.
    destruct (column_1_ok _ Hall) as (col & Hcol & Hrel).
    inversion Hrel as [| ? p ? col' Hp Hrest]; subst.
    exists p. split; [done |]. by rewrite Hcol.
  - intros [-> | Hex]; [done |].
    by rewrite (column_1_short _ Hex).
Qed.

Lemma voice_prob_is_column_1_witness :
  exists p, [1 - 0.2; 0.2]%Q !! 1%nat = Some p /\
            Infer.voice_prob (F:=Q) (Scenario.env 0.8 0.2) [[1; 2; 3]%Q] = Ok p.
Proof.
  exact (proj1 (voice_prob_is_column_1 (F:=Q) (Scenario.env 0.8 0.2) [[1; 2; 3]%Q]
                  (fun _ => Ok [[1 - 0.2; 0.2]%Q]) [[1 - 0.2; 0.2]%Q] eq_refl eq_refl)
           [1 - 0.2; 0.2]%Q [] eq_refl
           ltac:(repeat constructor)).
Defined.

(** ** The age and the caution *)

(** X9 - The age reaches nothing but the caution line of the command-line
    shell: whether the run raises, which error, and every number and the
    decision it reports are those of the run without an age. *)
Theorem cli_age_changes_caution_only {F : Type} `{PyFloat F}
    (env : Infer.Env F) (fs : gmap string string) (img wav : string)
    (age : option string) (w1 w2 : F) :
  Infer.multimodal_predict env fs img wav age w1 w2 =
  match Infer.multimodal_predict env fs img wav None w1 w2 with
  | Ok r =>
      Ok {| Infer.r_drawing_prob := Infer.r_drawing_prob r;
            Infer.r_voice_prob := Infer.r_voice_prob r;
            Infer.r_combined := Infer.r_combined r;
            Infer.r_decision := Infer.r_decision r;
            Infer.r_confidence := Infer.r_confidence r;
            Infer.r_caution := Infer.age_caution env age |}
  | Raise e => Raise e
  end.
Proof.
  unfold Infer.multimodal_predict, mbind, result_bind.
  destruct (Infer.get_drawing_input env fs img) as [d_in|]; [cbn [Py.bind] | done].
  destruct (Infer.drawing_predict env d_in) as [out|]; [cbn [Py.bind] | done].
  destruct (index out 0) as [d_prob|]; [cbn [Py.bind] | done].
  destruct (Infer.extract_voice_from_wav _ _ _ _) as [v_raw|]; [cbn [Py.bind] | done].
  destruct (Infer.scale_voice env v_raw) as [v_scaled|]; [cbn [Py.bind] | done].
  destruct (Infer.voice_prob env v_scaled) as [v_prob|]; [cbn [Py.bind] | done].
  reflexivity.
Qed.

(** X10 - The handler reads the form only for the age, and the age only for
    the caution: two requests with the same uploads whose ages give the same
    caution get the same answer and leave the same files and log. *)
Theorem http_age_changes_caution_only {F : Type} `{PyFloat F}
    (senv : Server.ServerEnv (F:=F)) (req1 req2 : Server.Request) (w : Server.World) :
  Server.files req1 = Server.files req2 ->
  Server.age_caution senv (Server.form req1 !! "age") =
    Server.age_caution senv (Server.form req2 !! "age") ->
  Server.predict senv req1 w = Server.predict senv req2 w.
Proof.
  intros Hfiles Hcaution.
  unfold Server.predict, Server.infer_and_respond.
  by rewrite Hfiles, Hcaution.
Qed.

Lemma http_age_changes_caution_only_witness :
  Server.predict (F:=Q) (Scenario.senv 0.8 0.2)
    (Scenario.request [("age", "forty"); ("name", "A")]
       [("spiral_img", Scenario.upload "s.png" "PNG");
        ("voice_wav", Scenario.upload "v.wav" "RIFF")])
    Scenario.world0 =
  Server.predict (F:=Q) (Scenario.senv 0.8 0.2)
    (Scenario.request []
       [("spiral_img", Scenario.upload "s.png" "PNG");
        ("voice_wav", Scenario.upload "v.wav" "RIFF")])
    Scenario.world0.
Proof.
  exact (http_age_changes_caution_only (F:=Q) (Scenario.senv 0.8 0.2)
           (Scenario.request [("age", "forty"); ("name", "A")]
              [("spiral_img", Scenario.upload "s.png" "PNG");
               ("voice_wav", Scenario.upload "v.wav" "RIFF")])
           (Scenario.request []
              [("spiral_img", Scenario.upload "s.png" "PNG");
               ("voice_wav", Scenario.upload "v.wav" "RIFF")])
           Scenario.world0 eq_refl eq_refl).
Defined.





(** ** The combiner with the default weights *)



(** ** The paths through the handler *)

Section HandlerPaths.

Context {F : Type} `{PyFloat F}.

Variable senv : Server.ServerEnv (F:=F).

(** The handler, path by path. *)
Lemma predict_cases (req : Server.Request) (w : Server.World) r w' :
  Server.predict senv req w = (r, w') ->
  let age := Server.form req !! "age" in
  let c := Server.tmp_counter w in
  let spiral_path := Server.tmp_name c ".png" in
  match Server.present (Server.files req !! "spiral_img") with
  | None =>
      r = Ok (Server.jsonify [("error", Server.JString "spiral_img is required")] 400) /\
      w' = w
  | Some spiral_file =>
      let w1 := Server.stored spiral_path (Server.stream spiral_file) w in
      match Server.present (Server.files req !! "voice_wav") with
      | None =>
          r = Ok (Server.jsonify [("error", Server.JString "voice_wav is required")] 400) /\
          Server.try_remove senv spiral_path w1 = (Ok tt, w')
      | Some voice_file =>
          let ext := Server.upload_ext senv voice_file in
          let raw_voice_path := Server.tmp_name (S c) ext in
          let w2 := Server.stored raw_voice_path (Server.stream voice_file) w1 in
          if String.eqb ext ".webm" then
            let wav_path := Server.tmp_name (S (S c)) ".wav" in
            match Server.convert_webm senv raw_voice_path wav_path
                    (Server.created wav_path w2) with
            | (Ok _, w4) =>
                Server.infer_and_respond senv age spiral_path raw_voice_path wav_path w4
                  = (r, w')
            | (Raise e, w4) =>
                r = Ok (Server.jsonify
                          [("error",
                            Server.JString ("Failed to convert webm to wav: " +:+ exn_msg e))]
                          500) /\
                exists w5,
                  Server.try_remove senv spiral_path w4 = (Ok tt, w5) /\
                  Server.try_remove senv raw_voice_path w5 = (Ok tt, w')
            end
          else
            Server.infer_and_respond senv age spiral_path raw_voice_path raw_voice_path w2
              = (r, w')
      end
  end.
Proof.
  intros Hrun age c spiral_path. unfold Server.predict in Hrun. fold age in Hrun.
  destruct (Server.present (Server.files req !! "spiral_img")) as [spiral_file|].
  2: { by injection Hrun as <- <-. }
  unfold Server.bindM at 1 in Hrun. unfold Server.NamedTemporaryFile at 1 in Hrun.
  unfold Server.bindM at 1 in Hrun. unfold Server.save at 1 in Hrun.
  cbn [Server.fs Server.tmp_counter Server.removals] in Hrun.
  fold c in Hrun. fold spiral_path in Hrun.
  change {| Server.fs := <[spiral_path:=Server.stream spiral_file]>
                           (<[spiral_path:=""]> (Server.fs w));
            Server.tmp_counter := S c;
            Server.removals := Server.removals w |}
    with (Server.stored spiral_path (Server.stream spiral_file) w) in Hrun.
  intros w1. fold w1 in Hrun.
  destruct (Server.present (Server.files req !! "voice_wav")) as [voice_file|].
  2: { unfold Server.bindM in Hrun.
       destruct (try_remove_spec senv spiral_path w1) as (w2 & Hrm & _).
       rewrite Hrm in Hrun. injection Hrun as <- <-. done. }
  change (Server.lower (Server.splitext_ext senv _))
    with (Server.upload_ext senv voice_file) in Hrun.
  intros ext. fold ext in Hrun.
  unfold Server.bindM at 1 in Hrun. unfold Server.NamedTemporaryFile at 1 in Hrun.
  unfold Server.bindM at 1 in Hrun. unfold Server.save at 1 in Hrun.
  cbn [Server.fs Server.tmp_counter Server.removals] in Hrun.
  change (Server.tmp_counter w1) with (S c) in Hrun.
  intros raw_voice_path. fold raw_voice_path in Hrun.
  change {| Server.fs := <[raw_voice_path:=Server.stream voice_file]>
                           (<[raw_voice_path:=""]> (Server.fs w1));
            Server.tmp_counter := S (S c);
            Server.removals := Server.removals w1 |}
    with (Server.stored raw_voice_path (Server.stream voice_file) w1) in Hrun.
  intros w2. fold w2 in Hrun.
  destruct (String.eqb ext ".webm"); [| exact Hrun].
  unfold Server.bindM at 1 in Hrun. unfold Server.NamedTemporaryFile at 1 in Hrun.
  change (Server.tmp_counter w2) with (S (S c)) in Hrun.
  intros wav_path. fold wav_path in Hrun.
  change {| Server.fs := <[wav_path:=""]> (Server.fs w2);
            Server.tmp_counter := S (S (S c));
            Server.removals := Server.removals w2 |}
    with (Server.created wav_path w2) in Hrun.
  unfold Server.bindM at 1 in Hrun. unfold Server.try_exceptM in Hrun.
  unfold Server.bindM at 1 in Hrun.
  destruct (Server.convert_webm senv raw_voice_path wav_path _) as [[[]|e] w4].
  - exact Hrun.
  - unfold Server.bindM in Hrun.
    destruct (try_remove_spec senv spiral_path w4) as (w5 & Hrm1 & _).
    destruct (try_remove_spec senv raw_voice_path w5) as (w6 & Hrm2 & _).
    rewrite Hrm1, Hrm2 in Hrun. injection Hrun as <- <-.
    split; [done |]. by exists w5.
Qed.

End HandlerPaths.

Section HandlerSteps.

Context {F : Type} `{PyFloat F}.

Variable senv : Server.ServerEnv (F:=F).

(** Lines 102-159 either raise before any clean-up, or answer 200 after
    the removals. *)
Lemma infer_and_respond_cases age spiral_path raw_voice_path final_voice_path w r w' :
  Server.infer_and_respond senv age spiral_path raw_voice_path final_voice_path w = (r, w') ->
  (exists e, r = Raise e /\ w' = w) \/
  (exists (d v : F) (v_raw : Infer.matrix) d_in out v_scaled w1 w2,
     (Infer.get_drawing_input (Server.infer_env senv) (Server.fs w) spiral_path = Ok d_in /\
      Infer.drawing_predict (Server.infer_env senv) d_in = Ok out /\
      index out 0 = Ok d) /\
     (Infer.extract_voice_from_wav (Server.infer_env senv) (Server.fs w) final_voice_path
        (Infer.n_features_in_ (Infer.voice_scaler (Server.infer_env senv))) = Ok v_raw /\
      Server.scale_voice senv v_raw = Ok v_scaled /\
      Infer.voice_prob (Server.infer_env senv) v_scaled = Ok v) /\
     r = Ok (Server.success_payload senv age d v (concat v_raw)) /\
     Server.try_remove senv spiral_path w = (Ok tt, w1) /\
     Server.try_remove senv raw_voice_path w1 = (Ok tt, w2) /\
     (if String.eqb final_voice_path raw_voice_path then w' = w2
      else Server.try_remove senv final_voice_path w2 = (Ok tt, w'))).
Proof.
  unfold Server.infer_and_respond, Server.with_fs.
  unfold Server.bindM at 1.
  destruct (Infer.get_drawing_input _ _ _) as [d_in|] eqn:E1; [| intros [= <- <-]; eauto].
  unfold Server.bindM at 1.
  destruct (Infer.drawing_predict _ _) as [out|] eqn:E2; [| intros [= <- <-]; eauto].
  unfold Server.bindM at 1.
  destruct (index out 0) as [d_prob|] eqn:E3; [| intros [= <- <-]; eauto].
  unfold Server.bindM at 1.
  destruct (Infer.extract_voice_from_wav _ _ _ _) as [v_raw|] eqn:E4;
    [| intros [= <- <-]; eauto].
  unfold Server.bindM at 1.
  destruct (Server.scale_voice senv v_raw) as [v_scaled|] eqn:E5;
    [| intros [= <- <-]; eauto].
  unfold Server.bindM at 1.
  destruct (Infer.voice_prob _ v_scaled) as [v_prob|] eqn:E6; [| intros [= <- <-]; eauto].
  unfold Server.bindM.
  destruct (try_remove_spec senv spiral_path w) as (w1 & Hrm1 & _).
  destruct (try_remove_spec senv raw_voice_path w1) as (w2 & Hrm2 & _).
  rewrite Hrm1, Hrm2. intros Hrun. right.
  exists d_prob, v_prob, v_raw, d_in, out, v_scaled, w1, w2.
  split; [done |]. split; [done |].
  destruct (String.eqb final_voice_path raw_voice_path).
  - unfold Server.ret in Hrun. injection Hrun as <- <-. done.
  - destruct (try_remove_spec senv final_voice_path w2) as (w3 & Hrm3 & _).
    rewrite Hrm3 in Hrun. unfold Server.ret in Hrun. injection Hrun as <- <-. done.
Qed.

(** A conversion that raises changes nothing; one that succeeds writes the
    wav file and nothing else. *)
Lemma convert_webm_cases raw wav w r w' :
  Server.convert_webm senv raw wav w = (r, w') ->
  (exists e, r = Raise e /\ w' = w) \/
  (exists content, r = Ok tt /\
     w' = {| Server.fs := <[wav := content]> (Server.fs w);
             Server.tmp_counter := Server.tmp_counter w;
             Server.removals := Server.removals w |}).
Proof.
  unfold Server.convert_webm.
  destruct (Server.fs w !! raw) as [content|]; [| intros [= <- <-]; eauto].
  destruct (Server.from_file_webm senv content) as [audio|]; [| intros [= <- <-]; eauto].
  destruct (Server.export_wav senv audio) as [wavc|]; intros [= <- <-]; eauto.
Qed.

Lemma is_tmp_tmp_name n suffix : Server.is_tmp (Server.tmp_name n suffix).
Proof. by exists n, suffix. Qed.

Lemma touched_refl w : Server.touched_tmp_only w w.
Proof.
  split; [done |]. split; [done |]. exists []. by rewrite app_nil_r.
Qed.

Lemma touched_trans w1 w2 w3 :
  Server.touched_tmp_only w1 w2 -> Server.touched_tmp_only w2 w3 ->
  Server.touched_tmp_only w1 w3.
Proof.
  intros (Hfs1 & Hc1 & evs1 & Hlog1 & Hev1) (Hfs2 & Hc2 & evs2 & Hlog2 & Hev2).
  split; [| split; [lia |]].
  - intros k Hk. by rewrite Hfs2, Hfs1.
  - exists (evs1 ++ evs2)%list. split.
    + by rewrite Hlog2, Hlog1, app_assoc.
    + by apply Forall_app.
Qed.

Lemma touched_insert p content w w' :
  Server.is_tmp p ->
  Server.fs w' = <[p := content]> (Server.fs w) ->
  (Server.tmp_counter w <= Server.tmp_counter w')%nat ->
  Server.removals w' = Server.removals w ->
  Server.touched_tmp_only w w'.
Proof.
  intros Hp Hfs Hc Hlog. split; [| split; [done |]].
  - intros k Hk. rewrite Hfs. apply lookup_insert_ne. by intros ->.
  - exists []. by rewrite app_nil_r.
Qed.

Lemma touched_stored p content w :
  Server.is_tmp p -> Server.touched_tmp_only w (Server.stored p content w).
Proof.
  intros Hp. split; [| split; [cbn; lia |]].
  - intros k Hk. cbn [Server.stored Server.fs].
    rewrite !lookup_insert_ne; [done | by intros -> | by intros ->].
  - exists []. cbn. by rewrite app_nil_r.
Qed.

Lemma touched_created p w :
  Server.is_tmp p -> Server.touched_tmp_only w (Server.created p w).
Proof.
  intros Hp. apply (touched_insert p ""); [done | done | cbn; lia | done].
Qed.

Lemma touched_try_remove p w w' :
  Server.is_tmp p ->
  Server.try_remove senv p w = (Ok tt, w') ->
  Server.touched_tmp_only w w'.
Proof.
  intros Hp Hrm.
  destruct (try_remove_spec senv p w) as (w'' & Hrm' & Hc & Hcases).
  rewrite Hrm in Hrm'. injection Hrm' as <-.
  assert (Hfs : forall k, ~ Server.is_tmp k -> Server.fs w' !! k = Server.fs w !! k).
  { intros k Hk.
    destruct (Server.fs w !! p) as [c0|], (Server.remove_error senv p) as [e0|];
      destruct Hcases as [-> _]; try done.
    apply lookup_delete_ne. by intros ->. }
  split; [exact Hfs |]. split; [lia |].
  destruct (Server.fs w !! p) as [c0|], (Server.remove_error senv p) as [e0|].
  - destruct Hcases as [_ ->]. eexists. split; [done |]. by repeat constructor.
  - destruct Hcases as [_ ->]. eexists. split; [done |]. by repeat constructor.
  - destruct Hcases as [_ [e1 ->]]. eexists. split; [done |]. by repeat constructor.
  - destruct Hcases as [_ [e1 ->]]. eexists. split; [done |]. by repeat constructor.
Qed.

Lemma touched_convert_webm raw wav w r w' :
  Server.is_tmp wav ->
  Server.convert_webm senv raw wav w = (r, w') ->
  Server.touched_tmp_only w w'.
Proof.
  intros Hwav Hrun.
  destruct (convert_webm_cases raw wav w r w' Hrun) as [(e & _ & ->) | (content & _ & ->)].
  - apply touched_refl.
  - by apply (touched_insert wav content).
Qed.

Lemma touched_infer_and_respond age sp raw fin w r w' :
  Server.is_tmp sp -> Server.is_tmp raw -> Server.is_tmp fin ->
  Server.infer_and_respond senv age sp raw fin w = (r, w') ->
  Server.touched_tmp_only w w'.
Proof.
  intros Hsp Hraw Hfin Hrun.
  destruct (infer_and_respond_cases age sp raw fin w r w' Hrun)
    as [(e & _ & ->) |
        (d & v & v_raw & d_in & out & v_scaled & w1 & w2 & _ & _ & _ & Hrm1 & Hrm2 & Hlast)].
  - apply touched_refl.
  - apply (touched_trans w w1); [by apply (touched_try_remove sp) |].
    apply (touched_trans w1 w2); [by apply (touched_try_remove raw) |].
    destruct (String.eqb fin raw).
    + subst w'. apply touched_refl.
    + by apply (touched_try_remove fin).
Qed.

(** With a removal that cannot fail, the file is deleted whether or not it
    was there. *)
Lemma try_remove_deletes p w w' :
  Server.remove_error senv p = None ->
  Server.try_remove senv p w = (Ok tt, w') ->
  Server.fs w' = delete p (Server.fs w).
Proof.
  intros Hok Hrm.
  destruct (try_remove_spec senv p w) as (w'' & Hrm' & _ & Hcases).
  rewrite Hrm in Hrm'. injection Hrm' as <-. rewrite Hok in Hcases.
  destruct (Server.fs w !! p) eqn:Hp.
  - by destruct Hcases as [-> _].
  - destruct Hcases as [-> _]. symmetry. by apply delete_id.
Qed.

End HandlerSteps.

(** ** Every path of the handler *)

(** X14 - An upload part without a file name (none, or the empty string a
    browser sends when no file was chosen) counts as missing: such a
    [spiral_img] gives the 400 answer for the image with nothing written,
    such a [voice_wav] the 400 answer for the recording after the spiral
    temporary file has been removed. *)
Theorem unnamed_upload_counts_as_missing {F : Type} `{PyFloat F}
    (senv : Server.ServerEnv (F:=F)) (req : Server.Request) (w : Server.World)
    (f : Server.FileStorage) :
  Server.filename f = None \/ Server.filename f = Some "" ->
  (Server.files req !! "spiral_img" = Some f ->
   Server.predict senv req w =
     (Ok (Server.jsonify [("error", Server.JString "spiral_img is required")] 400), w)) /\
  (forall spiral_file,
     Server.present (Server.files req !! "spiral_img") = Some spiral_file ->
     Server.files req !! "voice_wav" = Some f ->
     exists w',
       Server.predict senv req w =
         (Ok (Server.jsonify [("error", Server.JString "voice_wav is required")] 400), w') /\
       Server.try_remove senv (Server.tmp_name (Server.tmp_counter w) ".png")
         (Server.stored (Server.tmp_name (Server.tmp_counter w) ".png")
            (Server.stream spiral_file) w) = (Ok tt, w')).
Proof.
  intros Hname.
  assert (Hmissing : Server.present (Some f) = None).
  { unfold Server.present. by destruct Hname as [-> | ->]. }
  split.
  - intros Hf. destruct (Server.predict senv req w) as [r w'] eqn:Hrun.
    apply predict_cases in Hrun. rewrite Hf, Hmissing in Hrun.
    by destruct Hrun as [-> ->].
  - intros spiral_file Hspiral Hf.
    destruct (Server.predict senv req w) as [r w'] eqn:Hrun.
    apply predict_cases in Hrun. rewrite Hspiral, Hf, Hmissing in Hrun.
    destruct Hrun as [-> Hrm]. by exists w'.
Qed.

Lemma unnamed_upload_counts_as_missing_witness :
  Server.predict (F:=Q) (Scenario.senv 0.8 0.2)
    (Scenario.request [] [("spiral_img", Scenario.upload "" "");
                          ("voice_wav", Scenario.upload "v.wav" "RIFF")])
    Scenario.world0 =
  (Ok (Server.jsonify [("error", Server.JString "spiral_img is required")] 400),
   Scenario.world0).
Proof.
  exact (proj1 (unnamed_upload_counts_as_missing (F:=Q) (Scenario.senv 0.8 0.2)
                  (Scenario.request [] [("spiral_img", Scenario.upload "" "");
                                        ("voice_wav", Scenario.upload "v.wav" "RIFF")])
                  Scenario.world0 (Scenario.upload "" "") (or_intror eq_refl))
           eq_refl).
Defined.

(** X15 - Whatever the handler returns is one of four answers: 400 for a
    missing image, 400 for a missing recording, 500 with the reason of a
    failed conversion, or 200 with the seven-field payload computed with the
    weights 0.55 and 0.45. *)
Theorem predict_answers_are_four {F : Type} `{PyFloat F}
    (senv : Server.ServerEnv (F:=F)) (req : Server.Request) (w : Server.World)
    (resp : Server.Response) (w' : Server.World) :
  Server.predict senv req w = (Ok resp, w') ->
  resp = Server.jsonify [("error", Server.JString "spiral_img is required")] 400 \/
  resp = Server.jsonify [("error", Server.JString "voice_wav is required")] 400 \/
  (exists e, resp = Server.jsonify
                      [("error",
                        Server.JString ("Failed to convert webm to wav: " +:+ exn_msg e))]
                      500) \/
  (exists d v features,
     resp = Server.success_payload senv (Server.form req !! "age") d v features).
Proof.
  intros Hrun. apply predict_cases in Hrun. cbn zeta in Hrun.
  assert (Hinfer : forall sp raw fin w0,
             Server.infer_and_respond senv (Server.form req !! "age") sp raw fin w0
               = (Ok resp, w') ->
             exists d v features,
               resp = Server.success_payload senv (Server.form req !! "age") d v features).
  { intros sp raw fin w0 Hi.
    destruct (infer_and_respond_cases senv _ _ _ _ _ _ _ Hi)
      as [(e & [=] & _) | (d & v & v_raw & ? & ? & ? & ? & ? & _ & _ & [= ->] & _)].
    eauto. }
  destruct (Server.present (Server.files req !! "spiral_img")) as [spiral_file|].
  2: { destruct Hrun as [[= ->] _]. by left. }
  destruct (Server.present (Server.files req !! "voice_wav")) as [voice_file|].
  2: { destruct Hrun as [[= ->] _]. right. by left. }
  destruct (String.eqb _ ".webm").
  - destruct (Server.convert_webm _ _ _ _) as [[[]|e] w4].
    + right. right. right. by eapply Hinfer.
    + destruct Hrun as [[= ->] _]. right. right. left. by exists e.
  - right. right. right. by eapply Hinfer.
Qed.

Lemma predict_answers_are_four_witness :
  exists d v features,
    fst (Server.predict (F:=Q) (Scenario.senv 0.8 0.2)
           (Scenario.request [("age", "40")]
              [("spiral_img", Scenario.upload "s.png" "PNG");
               ("voice_wav", Scenario.upload "v.wav" "RIFF")])
           Scenario.world0) =
    Ok (Server.success_payload (Scenario.senv 0.8 0.2) (Some "40") d v features).
Proof.
  destruct (Server.predict (F:=Q) (Scenario.senv 0.8 0.2)
              (Scenario.request [("age", "40")]
                 [("spiral_img", Scenario.upload "s.png" "PNG");
                  ("voice_wav", Scenario.upload "v.wav" "RIFF")])
              Scenario.world0) as [[resp|e] w'] eqn:Hrun; [| vm_compute in Hrun; discriminate].
  destruct (predict_answers_are_four (F:=Q) _ _ _ _ _ Hrun)
    as [-> | [-> | [(e & ->) | (d & v & features & ->)]]];
    [vm_compute in Hrun; discriminate .. |].
  by exists d, v, features.
Defined.

(** X16 - Whatever the request and however it ends, the handler writes and
    removes only temporary files of its own naming: every other path keeps
    what it held, and every [os.remove] it logs is of such a file. *)
Theorem handler_touches_only_temp_files {F : Type} `{PyFloat F}
    (senv : Server.ServerEnv (F:=F)) (req : Server.Request) (w : Server.World)
    (r : result Server.Response) (w' : Server.World) :
  Server.predict senv req w = (r, w') ->
  Server.touched_tmp_only w w'.
Proof.
  intros Hrun. apply predict_cases in Hrun. cbn zeta in Hrun.
  destruct (Server.present (Server.files req !! "spiral_img")) as [spiral_file|].
  2: { destruct Hrun as [_ ->]. apply touched_refl. }
  set (sp := Server.tmp_name (Server.tmp_counter w) ".png") in *.
  set (w1 := Server.stored sp (Server.stream spiral_file) w) in *.
  assert (H1 : Server.touched_tmp_only w w1) by apply touched_stored, is_tmp_tmp_name.
  destruct (Server.present (Server.files req !! "voice_wav")) as [voice_file|].
  2: { destruct Hrun as [_ Hrm]. apply (touched_trans w w1); [done |].
       apply (touched_try_remove senv sp); [apply is_tmp_tmp_name | done]. }
  set (raw := Server.tmp_name (S (Server.tmp_counter w)) _) in *.
  set (w2 := Server.stored raw (Server.stream voice_file) w1) in *.
  assert (H2 : Server.touched_tmp_only w w2).
  { apply (touched_trans w w1); [done |]. apply touched_stored, is_tmp_tmp_name. }
  destruct (String.eqb _ ".webm").
  - set (wav := Server.tmp_name (S (S (Server.tmp_counter w))) ".wav") in *.
    assert (H3 : Server.touched_tmp_only w (Server.created wav w2)).
    { apply (touched_trans w w2); [done |]. apply touched_created, is_tmp_tmp_name. }
    destruct (Server.convert_webm senv raw wav (Server.created wav w2))
      as [rc w4] eqn:Hconv.
    assert (H4 : Server.touched_tmp_only w w4).
    { apply (touched_trans w (Server.created wav w2)); [done |].
      apply (touched_convert_webm senv raw wav _ rc); [apply is_tmp_tmp_name | done]. }
    destruct rc as [[]|e].
    + apply (touched_trans w w4); [done |].
      apply (touched_infer_and_respond senv (Server.form req !! "age") sp raw wav w4 r);
        [apply is_tmp_tmp_name .. | done].
    + destruct Hrun as (_ & w5 & Hrm1 & Hrm2).
      apply (touched_trans w w4); [done |].
      apply (touched_trans w4 w5).
      * apply (touched_try_remove senv sp); [apply is_tmp_tmp_name | done].
      * apply (touched_try_remove senv raw); [apply is_tmp_tmp_name | done].
  - apply (touched_trans w w2); [done |].
    apply (touched_infer_and_respond senv (Server.form req !! "age") sp raw raw w2 r);
      [apply is_tmp_tmp_name .. | done].
Qed.

Lemma handler_touches_only_temp_files_witness :
  Server.touched_tmp_only
    {| Server.fs := {["/srv/models/voice_model.pkl" := "PKL"]};
       Server.tmp_counter := 7; Server.removals := [] |}
    (snd (Server.predict (F:=Q) (Scenario.senv 0.8 0.2)
            (Scenario.request [] [("spiral_img", Scenario.upload "s.png" "PNG");
                                  ("voice_wav", Scenario.upload "v.webm" "WEBM")])
            {| Server.fs := {["/srv/models/voice_model.pkl" := "PKL"]};
               Server.tmp_counter := 7; Server.removals := [] |})).
Proof.
  apply (handler_touches_only_temp_files (F:=Q) (Scenario.senv 0.8 0.2)
           (Scenario.request [] [("spiral_img", Scenario.upload "s.png" "PNG");
                                 ("voice_wav", Scenario.upload "v.webm" "WEBM")])
           _
           (fst (Server.predict (F:=Q) (Scenario.senv 0.8 0.2)
                   (Scenario.request [] [("spiral_img", Scenario.upload "s.png" "PNG");
                                         ("voice_wav", Scenario.upload "v.webm" "WEBM")])
                   {| Server.fs := {["/srv/models/voice_model.pkl" := "PKL"]};
                      Server.tmp_counter := 7; Server.removals := [] |}))).
  apply surjective_pairing.
Defined.

Section Leftovers.

Context {F : Type} `{PyFloat F}.

Variable senv : Server.ServerEnv (F:=F).

Lemma is_Some_insert (m : gmap string string) (j k x : string) :
  is_Some (m !! k) -> is_Some (<[j := x]> m !! k).
Proof.
  intros Hk. rewrite lookup_insert_is_Some. destruct (decide (j = k)); eauto.
Qed.

(** What a guarded removal of [p] does to another path and to the log. *)
Lemma try_remove_other p w w' k :
  Server.try_remove senv p w = (Ok tt, w') ->
  k <> p ->
  Server.fs w' !! k = Server.fs w !! k.
Proof.
  intros Hrm Hne.
  destruct (try_remove_spec senv p w) as (w'' & Hrm' & _ & Hcases).
  rewrite Hrm in Hrm'. injection Hrm' as <-.
  destruct (Server.fs w !! p) as [c0|], (Server.remove_error senv p) as [e0|];
    destruct Hcases as [-> _]; try done.
  by apply lookup_delete_ne.
Qed.

Lemma try_remove_logs p w w' :
  Server.try_remove senv p w = (Ok tt, w') ->
  exists ev, Server.removals w' = (Server.removals w ++ [ev])%list /\
             Server.removed_path ev = p.
Proof.
  intros Hrm.
  destruct (try_remove_spec senv p w) as (w'' & Hrm' & _ & Hcases).
  rewrite Hrm in Hrm'. injection Hrm' as <-.
  destruct (Server.fs w !! p) as [c0|], (Server.remove_error senv p) as [e0|].
  - destruct Hcases as [_ ->]. by eexists.
  - destruct Hcases as [_ ->]. by eexists.
  - destruct Hcases as [_ [e1 ->]]. by eexists.
  - destruct Hcases as [_ [e1 ->]]. by eexists.
Qed.

End Leftovers.

(** X17 - When the handler lets an exception out (the upload is not an image
    OpenCV can read, the recording cannot be loaded, a model raises), both
    uploads had been stored and nothing is cleaned up: no [os.remove] is
    logged and the two temporary files are still on disk. *)
Theorem exception_leaves_uploads_on_disk {F : Type} `{PyFloat F}
    (senv : Server.ServerEnv (F:=F)) (req : Server.Request) (w : Server.World)
    (e : exn) (w' : Server.World) :
  Server.predict senv req w = (Raise e, w') ->
  Server.removals w' = Server.removals w /\
  exists voice_file,
    Server.present (Server.files req !! "voice_wav") = Some voice_file /\
    is_Some (Server.fs w' !! Server.tmp_name (Server.tmp_counter w) ".png") /\
    is_Some (Server.fs w' !! Server.tmp_name (S (Server.tmp_counter w))
                               (Server.upload_ext senv voice_file)).
Proof.
  intros Hrun. apply predict_cases in Hrun. cbn zeta in Hrun.
  destruct (Server.present (Server.files req !! "spiral_img")) as [spiral_file|];
    [| by destruct Hrun as [[=] _]].
  destruct (Server.present (Server.files req !! "voice_wav")) as [voice_file|];
    [| by destruct Hrun as [[=] _]].
  set (sp := Server.tmp_name (Server.tmp_counter w) ".png") in *.
  set (raw := Server.tmp_name (S (Server.tmp_counter w)) _) in *.
  set (w2 := Server.stored raw (Server.stream voice_file)
               (Server.stored sp (Server.stream spiral_file) w)) in *.
  assert (Hsp : is_Some (Server.fs w2 !! sp)).
  { subst w2. cbn [Server.stored Server.fs].
    do 2 apply is_Some_insert. rewrite lookup_insert_eq. by eexists. }
  assert (Hraw : is_Some (Server.fs w2 !! raw)).
  { subst w2. cbn [Server.stored Server.fs]. rewrite lookup_insert_eq. by eexists. }
  assert (Hinfer : forall fin w0,
             Server.infer_and_respond senv (Server.form req !! "age") sp raw fin w0
               = (Raise e, w') -> w' = w0).
  { intros fin w0 Hi.
    destruct (infer_and_respond_cases senv _ _ _ _ _ _ _ Hi)
      as [(e' & _ & ->) | (d & v & v_raw & ? & ? & ? & ? & ? & _ & _ & [=] & _)].
    done. }
  destruct (String.eqb _ ".webm").
  - set (wav := Server.tmp_name (S (S (Server.tmp_counter w))) ".wav") in *.
    destruct (Server.convert_webm senv raw wav (Server.created wav w2))
      as [[[]|e'] w4] eqn:Hconv; [| by destruct Hrun as [[=] _]].
    apply Hinfer in Hrun as ->.
    destruct (convert_webm_cases senv raw wav _ _ _ Hconv)
      as [(e' & [=] & _) | (content & _ & ->)].
    cbn [Server.created Server.fs Server.removals].
    split; [done |]. exists voice_file. split; [done |].
    split; by do 2 apply is_Some_insert.
  - apply Hinfer in Hrun as ->. split; [done |]. by exists voice_file.
Qed.

Lemma exception_leaves_uploads_on_disk_witness :
  exists e w',
    Server.predict (F:=Q) (Scenario.senv 0.8 0.2)
      (Scenario.request [] [("spiral_img", Scenario.upload "notes.txt" "");
                            ("voice_wav", Scenario.upload "v.wav" "RIFF")])
      Scenario.world0 = (Raise e, w') /\
    Server.removals w' = [] /\
    is_Some (Server.fs w' !! "/tmp/tmp0.png") /\
    is_Some (Server.fs w' !! "/tmp/tmp1.wav").
Proof.
  destruct (Server.predict (F:=Q) (Scenario.senv 0.8 0.2)
              (Scenario.request [] [("spiral_img", Scenario.upload "notes.txt" "");
                                    ("voice_wav", Scenario.upload "v.wav" "RIFF")])
              Scenario.world0) as [[resp|e] w'] eqn:Hrun; [vm_compute in Hrun; discriminate |].
  exists e, w'. split; [done |].
  destruct (exception_leaves_uploads_on_disk (F:=Q) _ _ _ _ _ Hrun)
    as (Hlog & vf & Hvf & Hsp & Hraw).
  injection Hvf as <-. done.
Defined.

(** X18 - When every removal succeeds, a request answered with 200 or 400
    leaves no file behind: the disk afterwards holds nothing it did not hold
    before, and it is exactly the disk from before when no temporary name was
    in use.  (The 500 answer is the exception, see X19.) *)
Theorem answered_request_leaves_no_file {F : Type} `{PyFloat F}
    (senv : Server.ServerEnv (F:=F)) (req : Server.Request) (w : Server.World)
    (resp : Server.Response) (w' : Server.World) :
  Server.predict senv req w = (Ok resp, w') ->
  Server.status resp <> 500%Z ->
  (forall p, Server.remove_error senv p = None) ->
  Server.fs w' ⊆ Server.fs w /\
  ((forall n suffix, Server.fs w !! Server.tmp_name n suffix = None) ->
   Server.fs w' = Server.fs w).
Proof.
  intros Hrun Hstatus Hremove.
  enough (Hlookup : forall k,
             Server.fs w' !! k = Server.fs w !! k \/
             (Server.fs w' !! k = None /\ Server.is_tmp k)).
  { split.
    - apply map_subseteq_spec. intros k v Hk.
      destruct (Hlookup k) as [<- | [Hnone _]]; congruence.
    - intros Hfresh. apply map_eq. intros k.
      destruct (Hlookup k) as [-> | [-> (n & suffix & ->)]]; [done |].
      by rewrite Hfresh. }
  apply predict_cases in Hrun. cbn zeta in Hrun.
  destruct (Server.present (Server.files req !! "spiral_img")) as [spiral_file|].
  2: { destruct Hrun as [_ ->]. by left. }
  set (sp := Server.tmp_name (Server.tmp_counter w) ".png") in *.
  assert (Hsp : Server.is_tmp sp) by apply is_tmp_tmp_name.
  destruct (Server.present (Server.files req !! "voice_wav")) as [voice_file|].
  2: { destruct Hrun as [_ Hrm]. intros k.
       rewrite (try_remove_deletes senv sp _ _ (Hremove sp) Hrm).
       cbn [Server.stored Server.fs]. rewrite lookup_delete, !lookup_insert.
       repeat case_decide; subst; eauto. }
  set (raw := Server.tmp_name (S (Server.tmp_counter w)) _) in *.
  assert (Hraw : Server.is_tmp raw) by apply is_tmp_tmp_name.
  set (w2 := Server.stored raw (Server.stream voice_file)
               (Server.stored sp (Server.stream spiral_file) w)) in *.
  assert (Hinfer : forall fin w0,
             Server.infer_and_respond senv (Server.form req !! "age") sp raw fin w0
               = (Ok resp, w') ->
             Server.fs w' = delete fin (delete raw (delete sp (Server.fs w0)))).
  { intros fin w0 Hi.
    destruct (infer_and_respond_cases senv _ _ _ _ _ _ _ Hi)
      as [(e' & [=] & _) |
          (d & v & v_raw & ? & ? & ? & w3 & w4 & _ & _ & _ & Hrm1 & Hrm2 & Hlast)].
    apply (try_remove_deletes senv sp _ _ (Hremove sp)) in Hrm1.
    apply (try_remove_deletes senv raw _ _ (Hremove raw)) in Hrm2.
    destruct (String.eqb fin raw) eqn:Heq.
    - apply String.eqb_eq in Heq. subst fin w'.
      rewrite Hrm2, Hrm1. by rewrite delete_delete_eq.
    - apply (try_remove_deletes senv fin _ _ (Hremove fin)) in Hlast.
      by rewrite Hlast, Hrm2, Hrm1. }
  destruct (String.eqb _ ".webm").
  - set (wav := Server.tmp_name (S (S (Server.tmp_counter w))) ".wav") in *.
    assert (Hwav : Server.is_tmp wav) by apply is_tmp_tmp_name.
    destruct (Server.convert_webm senv raw wav (Server.created wav w2))
      as [[[]|e'] w4] eqn:Hconv.
    + apply Hinfer in Hrun.
      destruct (convert_webm_cases senv raw wav _ _ _ Hconv)
        as [(e' & [=] & _) | (content & _ & ->)].
      intros k. rewrite Hrun. subst w2. cbn [Server.created Server.stored Server.fs].
      rewrite !lookup_delete, !lookup_insert.
      repeat case_decide; subst; eauto.
    + destruct Hrun as [[= ->] _]. by destruct Hstatus.
  - apply Hinfer in Hrun. intros k. rewrite Hrun. subst w2.
    cbn [Server.stored Server.fs]. rewrite !lookup_delete, !lookup_insert.
    repeat case_decide; subst; eauto.
Qed.

Lemma answered_request_leaves_no_file_witness :
  exists resp w',
    Server.predict (F:=Q) (Scenario.senv 0.8 0.2)
      (Scenario.request [] [("spiral_img", Scenario.upload "s.png" "PNG");
                            ("voice_wav", Scenario.upload "v.webm" "WEBM")])
      Scenario.world0 = (Ok resp, w') /\
    Server.fs w' = ∅.
Proof.
  destruct (Server.predict (F:=Q) (Scenario.senv 0.8 0.2)
              (Scenario.request [] [("spiral_img", Scenario.upload "s.png" "PNG");
                                    ("voice_wav", Scenario.upload "v.webm" "WEBM")])
              Scenario.world0) as [[resp|e] w'] eqn:Hrun; [| vm_compute in Hrun; discriminate].
  exists resp, w'. split; [done |].
  assert (Hstatus : Server.status resp <> 500%Z).
  { pose proof Hrun as Hrun'. vm_compute in Hrun'. injection Hrun' as <- _. discriminate. }
  apply (answered_request_leaves_no_file (F:=Q) _ _ _ _ _ Hrun Hstatus); [done |].
  intros n suffix. apply lookup_empty.
Defined.

(** X19 - After the 500 answer of a failed conversion the empty wav file
    made for the conversion is still on disk, and the two removals the
    handler logged are those of the two uploads: nothing removes it. *)
Theorem failed_conversion_leaves_wav_file {F : Type} `{PyFloat F}
    (senv : Server.ServerEnv (F:=F)) (req : Server.Request) (w : Server.World)
    (resp : Server.Response) (w' : Server.World) :
  Server.predict senv req w = (Ok resp, w') ->
  Server.status resp = 500%Z ->
  Server.fs w' !! Server.tmp_name (S (S (Server.tmp_counter w))) ".wav" = Some "" /\
  exists ev1 ev2,
    Server.removals w' = (Server.removals w ++ [ev1; ev2])%list /\
    Server.removed_path ev1 = Server.tmp_name (Server.tmp_counter w) ".png" /\
    Server.removed_path ev2 = Server.tmp_name (S (Server.tmp_counter w)) ".webm".
Proof.
  intros Hrun Hstatus. apply predict_cases in Hrun. cbn zeta in Hrun.
  destruct (Server.present (Server.files req !! "spiral_img")) as [spiral_file|];
    [| by destruct Hrun as [[= ->] _]].
  destruct (Server.present (Server.files req !! "voice_wav")) as [voice_file|];
    [| by destruct Hrun as [[= ->] _]].
  assert (Hinfer : forall sp raw fin w0,
             Server.infer_and_respond senv (Server.form req !! "age") sp raw fin w0
               = (Ok resp, w') -> False).
  { intros sp raw fin w0 Hi.
    destruct (infer_and_respond_cases senv _ _ _ _ _ _ _ Hi)
      as [(e' & [=] & _) | (d & v & v_raw & ? & ? & ? & ? & ? & _ & _ & [= ->] & _)].
    discriminate Hstatus. }
  destruct (String.eqb _ ".webm") eqn:Hext; [| by apply Hinfer in Hrun].
  apply String.eqb_eq in Hext. rewrite Hext in Hrun.
  set (sp := Server.tmp_name (Server.tmp_counter w) ".png") in *.
  set (raw := Server.tmp_name (S (Server.tmp_counter w)) ".webm") in *.
  set (wav := Server.tmp_name (S (S (Server.tmp_counter w))) ".wav") in *.
  destruct (Server.convert_webm senv raw wav _) as [[[]|e] w4] eqn:Hconv;
    [by apply Hinfer in Hrun |].
  destruct Hrun as (_ & w5 & Hrm1 & Hrm2).
  destruct (convert_webm_cases senv raw wav _ _ _ Hconv)
    as [(e' & _ & ->) | (content & [=] & _)].
  assert (Hne1 : wav <> sp) by (by apply tmp_name_ne).
  assert (Hne2 : wav <> raw) by (by apply tmp_name_ne).
  split.
  - rewrite (try_remove_other senv raw w5 w' wav Hrm2 Hne2).
    rewrite (try_remove_other senv sp _ w5 wav Hrm1 Hne1).
    cbn [Server.created Server.fs]. apply lookup_insert_eq.
  - destruct (try_remove_logs senv sp _ _ Hrm1) as (ev1 & Hlog1 & Hp1).
    destruct (try_remove_logs senv raw _ _ Hrm2) as (ev2 & Hlog2 & Hp2).
    exists ev1, ev2. split; [| done].
    rewrite Hlog2, Hlog1. cbn [Server.created Server.stored Server.removals].
    by rewrite <- app_assoc.
Qed.

Lemma failed_conversion_leaves_wav_file_witness :
  exists resp w',
    Server.predict (F:=Q)
      (Scenario.senv_of (Scenario.env 0.8 0.2)
         (Raise (Exn "CouldntDecodeError" "Decoding failed.")))
      (Scenario.request [] [("spiral_img", Scenario.upload "s.png" "PNG");
                            ("voice_wav", Scenario.upload "v.webm" "not a webm")])
      Scenario.world0 = (Ok resp, w') /\
    Server.fs w' !! "/tmp/tmp2.wav" = Some "".
Proof.
  destruct (Server.predict (F:=Q)
              (Scenario.senv_of (Scenario.env 0.8 0.2)
                 (Raise (Exn "CouldntDecodeError" "Decoding failed.")))
              (Scenario.request [] [("spiral_img", Scenario.upload "s.png" "PNG");
                                    ("voice_wav", Scenario.upload "v.webm" "not a webm")])
              Scenario.world0) as [[resp|e] w'] eqn:Hrun; [| vm_compute in Hrun; discriminate].
  exists resp, w'. split; [done |].
  assert (Hstatus : Server.status resp = 500%Z).
  { pose proof Hrun as Hrun'. vm_compute in Hrun'. by injection Hrun' as <- _. }
  exact (proj1 (failed_conversion_leaves_wav_file (F:=Q) _ _ _ _ _ Hrun Hstatus)).
Defined.

(** ** The two shells on the same files *)

Section SameFiles.

Context {F : Type} `{PyFloat F}.

Variable senv : Server.ServerEnv (F:=F).

Lemma extract_voice_from_wav_inv (env : Infer.Env F) fs wav expected v_raw :
  Infer.extract_voice_from_wav env fs wav expected = Ok v_raw ->
  exists snd pitch,
    Infer.parselmouth_Sound env fs wav = Ok snd /\
    Infer.to_pitch env snd = Ok pitch /\
    v_raw = [Infer.pad_or_truncate (Infer.base_feats env snd pitch)
               (Infer.target_width env expected 3)].
Proof.
  unfold Infer.extract_voice_from_wav, mbind, result_bind.
  destruct (Infer.parselmouth_Sound env fs wav) as [snd|] eqn:Hsnd; [cbn [Py.bind] | done].
  destruct (Infer.to_pitch env snd) as [pitch|] eqn:Hpitch; [cbn [Py.bind] | done].
  intros [= <-]. by exists snd, pitch.
Qed.

Lemma multimodal_predict_inv (env : Infer.Env F) fs img wav age (w1 w2 : F) r :
  Infer.multimodal_predict env fs img wav age w1 w2 = Ok r ->
  exists d_in out v_raw v_scaled,
    Infer.get_drawing_input env fs img = Ok d_in /\
    Infer.drawing_predict env d_in = Ok out /\
    index out 0 = Ok (Infer.r_drawing_prob r) /\
    Infer.extract_voice_from_wav env fs wav
      (Infer.n_features_in_ (Infer.voice_scaler env)) = Ok v_raw /\
    Infer.scale_voice env v_raw = Ok v_scaled /\
    Infer.voice_prob env v_scaled = Ok (Infer.r_voice_prob r) /\
    Infer.r_combined r =
      Infer.combine w1 (Infer.r_drawing_prob r) w2 (Infer.r_voice_prob r) /\
    Infer.r_decision r = Infer.decision (Infer.r_combined r) /\
    Infer.r_confidence r = Infer.confidence (Infer.r_combined r).
Proof.
  unfold Infer.multimodal_predict, mbind, result_bind.
  destruct (Infer.get_drawing_input env fs img) as [d_in|]; [cbn [Py.bind] | done].
  destruct (Infer.drawing_predict env d_in) as [out|] eqn:Hout; [cbn [Py.bind] | done].
  destruct (index out 0) as [d_prob|] eqn:Hd; [cbn [Py.bind] | done].
  destruct (Infer.extract_voice_from_wav _ _ _ _) as [v_raw|]; [cbn [Py.bind] | done].
  destruct (Infer.scale_voice env v_raw) as [v_scaled|] eqn:Hscale; [cbn [Py.bind] | done].
  destruct (Infer.voice_prob env v_scaled) as [v_prob|] eqn:Hprob; [cbn [Py.bind] | done].
  intros [= <-]. cbn. by exists d_in, out, v_raw, v_scaled.
Qed.

(** The adapter and the extractor see a file only through its bytes. *)
Lemma get_drawing_input_same_bytes (env : Infer.Env F) fs1 p1 fs2 p2 content arr :
  fs1 !! p1 = Some content -> fs2 !! p2 = Some content ->
  Infer.get_drawing_input env fs1 p1 = Ok arr ->
  Infer.get_drawing_input env fs2 p2 = Ok arr.
Proof.
  intros H1 H2. unfold Infer.get_drawing_input, Infer.cv2_imread.
  destruct (Infer.target_shape _) as [[Hh W] C]. rewrite H1, H2.
  by destruct (Infer.decode_image env content) as [[h w]|].
Qed.

Lemma extract_voice_from_wav_same_bytes (env : Infer.Env F) fs1 p1 fs2 p2 content expected :
  fs1 !! p1 = Some content -> fs2 !! p2 = Some content ->
  Infer.extract_voice_from_wav env fs1 p1 expected =
  Infer.extract_voice_from_wav env fs2 p2 expected.
Proof.
  intros H1 H2. unfold Infer.extract_voice_from_wav, Infer.parselmouth_Sound.
  by rewrite H1, H2.
Qed.

Lemma scale_voice_cli_then_http v_raw v_scaled :
  Infer.scale_voice (Server.infer_env senv) v_raw = Ok v_scaled ->
  Server.scale_voice senv v_raw = Ok v_scaled.
Proof.
  unfold Infer.scale_voice, Server.scale_voice, try_except.
  destruct (Infer.transform _ v_raw) as [s | e]; [done |].
  unfold Infer.np_zeros_row, mbind, result_bind.
  by destruct (_ <? 0)%Z.
Qed.

(** Lines 102-159 run to the 200 answer when every step succeeds. *)
Lemma infer_and_respond_runs age sp raw fin w d_in out d v_raw v_scaled v :
  Infer.get_drawing_input (Server.infer_env senv) (Server.fs w) sp = Ok d_in ->
  Infer.drawing_predict (Server.infer_env senv) d_in = Ok out ->
  index out 0 = Ok d ->
  Infer.extract_voice_from_wav (Server.infer_env senv) (Server.fs w) fin
    (Infer.n_features_in_ (Infer.voice_scaler (Server.infer_env senv))) = Ok v_raw ->
  Server.scale_voice senv v_raw = Ok v_scaled ->
  Infer.voice_prob (Server.infer_env senv) v_scaled = Ok v ->
  exists w',
    Server.infer_and_respond senv age sp raw fin w =
      (Ok (Server.success_payload senv age d v (concat v_raw)), w').
Proof.
  intros E1 E2 E3 E4 E5 E6.
  unfold Server.infer_and_respond, Server.with_fs.
  unfold Server.bindM at 1. rewrite E1.
  unfold Server.bindM at 1. rewrite E2.
  unfold Server.bindM at 1. rewrite E3.
  unfold Server.bindM at 1. rewrite E4.
  unfold Server.bindM at 1. rewrite E5.
  unfold Server.bindM at 1. rewrite E6.
  unfold Server.bindM.
  destruct (try_remove_spec senv sp w) as (w1 & -> & _).
  destruct (try_remove_spec senv raw w1) as (w2 & -> & _).
  destruct (String.eqb fin raw).
  - by exists w2.
  - destruct (try_remove_spec senv fin w2) as (w3 & -> & _). by exists w3.
Qed.

End SameFiles.

(** X20 - In a 200 answer the list under "extracted_voice_features" has
    exactly as many numbers as the scaler declares features. *)
Theorem payload_features_have_scaler_width {F : Type} `{PyFloat F}
    (senv : Server.ServerEnv (F:=F)) (req : Server.Request) (w : Server.World)
    (resp : Server.Response) (w' : Server.World) (N : Z) :
  Server.predict senv req w = (Ok resp, w') ->
  Server.status resp = 200%Z ->
  Infer.n_features_in_ (Infer.voice_scaler (Server.infer_env senv)) = Some N ->
  (0 <= N)%Z ->
  (forall names,
     Infer.feature_names_in_ (Infer.voice_scaler (Server.infer_env senv)) = Some names ->
     Z.of_nat (length names) = N) ->
  exists numbers,
    Server.field "extracted_voice_features" resp = Some (Server.JArray numbers) /\
    length numbers = Z.to_nat N.
Proof.
  intros Hrun Hstatus HN Hpos Hnames. apply predict_cases in Hrun. cbn zeta in Hrun.
  assert (Hinfer : forall sp raw fin w0,
             Server.infer_and_respond senv (Server.form req !! "age") sp raw fin w0
               = (Ok resp, w') ->
             exists numbers,
               Server.field "extracted_voice_features" resp = Some (Server.JArray numbers) /\
               length numbers = Z.to_nat N).
  { intros sp raw fin w0 Hi.
    destruct (infer_and_respond_cases senv _ _ _ _ _ _ _ Hi)
      as [(e' & [=] & _) |
          (d & v & v_raw & ? & ? & ? & ? & ? & _ & (Hex & _) & [= ->] & _)].
    apply extract_voice_from_wav_inv in Hex as (snd & pitch & _ & _ & ->).
    eexists. split; [reflexivity |].
    rewrite length_fmap. cbn [concat]. rewrite app_nil_r.
    rewrite (target_width_fitted _ N 3 HN Hnames).
    by apply pad_or_truncate_length. }
  destruct (Server.present (Server.files req !! "spiral_img")) as [spiral_file|];
    [| by destruct Hrun as [[= ->] _]].
  destruct (Server.present (Server.files req !! "voice_wav")) as [voice_file|];
    [| by destruct Hrun as [[= ->] _]].
  destruct (String.eqb _ ".webm"); [| by eapply Hinfer].
  destruct (Server.convert_webm _ _ _ _) as [[[]|e] w4]; [by eapply Hinfer |].
  by destruct Hrun as [[= ->] _].
Qed.

Lemma payload_features_have_scaler_width_witness :
  exists numbers,
    Server.field "extracted_voice_features"
      (match fst (Server.predict (F:=Q) (Scenario.senv 0.8 0.2)
                    (Scenario.request []
                       [("spiral_img", Scenario.upload "s.png" "PNG");
                        ("voice_wav", Scenario.upload "v.wav" "RIFF")])
                    Scenario.world0) with
       | Ok resp => resp
       | Raise _ => Server.jsonify [] 0
       end) = Some (Server.JArray numbers) /\
    length numbers = 22%nat.
Proof.
  destruct (Server.predict (F:=Q) (Scenario.senv 0.8 0.2)
              (Scenario.request [] [("spiral_img", Scenario.upload "s.png" "PNG");
                                    ("voice_wav", Scenario.upload "v.wav" "RIFF")])
              Scenario.world0) as [[resp|e] w'] eqn:Hrun; [| vm_compute in Hrun; discriminate].
  assert (Hstatus : Server.status resp = 200%Z).
  { pose proof Hrun as Hrun'. vm_compute in Hrun'. by injection Hrun' as <- _. }
  exact (payload_features_have_scaler_width (F:=Q) _ _ _ _ _ 22 Hrun Hstatus eq_refl
           ltac:(lia) ltac:(intros names Hn; discriminate Hn)).
Defined.

(** X21 - The HTTP shell answers what the command-line shell reports: when a
    command-line run with the default weights succeeds on two files, a
    request uploading the same bytes (the recording under a name ending in
    .wav) is answered 200 with the same two probabilities, combined score,
    confidence and decision. *)
Theorem http_answers_what_cli_reports {F : Type} `{PyFloat F}
    (senv : Server.ServerEnv (F:=F)) (fs : gmap string string) (img wav : string)
    (age : option string) (r : Infer.Report F)
    (req : Server.Request) (w : Server.World)
    (spiral_file voice_file : Server.FileStorage) :
  fs !! img = Some (Server.stream spiral_file) ->
  fs !! wav = Some (Server.stream voice_file) ->
  Infer.multimodal_predict (Server.infer_env senv) fs img wav age
    Infer.default_draw_weight Infer.default_voice_weight = Ok r ->
  Server.present (Server.files req !! "spiral_img") = Some spiral_file ->
  Server.present (Server.files req !! "voice_wav") = Some voice_file ->
  Server.upload_ext senv voice_file = ".wav" ->
  exists resp w',
    Server.predict senv req w = (Ok resp, w') /\
    Server.status resp = 200%Z /\
    Server.number_field "drawing_prob" resp = Some (Infer.r_drawing_prob r) /\
    Server.number_field "voice_prob" resp = Some (Infer.r_voice_prob r) /\
    Server.number_field "combined_score" resp = Some (Infer.r_combined r) /\
    Server.number_field "confidence" resp = Some (Infer.r_confidence r) /\
    Server.field "prediction" resp = Some (Server.JString (Infer.r_decision r)).
Proof.
  intros Himg Hwav Hcli Hspiral Hvoice Hext.
  apply multimodal_predict_inv in Hcli
    as (d_in & out & v_raw & v_scaled & E1 & E2 & E3 & E4 & E5 & E6 & Hs & Hdec & Hconf).
  set (sp := Server.tmp_name (Server.tmp_counter w) ".png").
  set (raw := Server.tmp_name (S (Server.tmp_counter w)) ".wav").
  set (w2 := Server.stored raw (Server.stream voice_file)
               (Server.stored sp (Server.stream spiral_file) w)).
  assert (Hne : sp <> raw) by (by apply tmp_name_ne).
  assert (Hsp : Server.fs w2 !! sp = Some (Server.stream spiral_file)).
  { subst w2. cbn [Server.stored Server.fs].
    rewrite !lookup_insert_ne by done. apply lookup_insert_eq. }
  assert (Hraw : Server.fs w2 !! raw = Some (Server.stream voice_file)).
  { subst w2. cbn [Server.stored Server.fs]. apply lookup_insert_eq. }
  destruct (infer_and_respond_runs senv (Server.form req !! "age") sp raw raw w2
              d_in out (Infer.r_drawing_prob r) v_raw v_scaled (Infer.r_voice_prob r))
    as (w' & Hrun); try done.
  { by apply (get_drawing_input_same_bytes _ fs img _ _ (Server.stream spiral_file)). }
  { by rewrite <- (extract_voice_from_wav_same_bytes _ fs wav _ _
                     (Server.stream voice_file)). }
  { by apply scale_voice_cli_then_http. }
  eexists _, w'. split.
  - destruct (Server.predict senv req w) as [r0 w0] eqn:Hp.
    apply predict_cases in Hp. cbn zeta in Hp.
    rewrite Hspiral, Hvoice, Hext in Hp. cbn [String.eqb Ascii.eqb Bool.eqb] in Hp.
    fold sp raw w2 in Hp. rewrite Hrun in Hp. by injection Hp as <- <-.
  - rewrite Hs, Hdec, Hconf, Hs. done.
Qed.

Lemma http_answers_what_cli_reports_witness :
  exists resp w',
    Server.predict (F:=Q) (Scenario.senv 0.8 0.2)
      (Scenario.request [("age", "15")]
         [("spiral_img", Scenario.upload "drawing.png" "PNG");
          ("voice_wav", Scenario.upload "Take 2.WAV" "RIFF")])
      Scenario.world0 = (Ok resp, w') /\
    Server.status resp = 200%Z /\
    Server.number_field "drawing_prob" resp = Some 0.8%Q /\
    Server.field "prediction" resp = Some (Server.JString "Parkinson").
Proof.
  assert (Hcli : exists r : Infer.Report Q,
             Infer.multimodal_predict (Server.infer_env (Scenario.senv 0.8 0.2))
               Scenario.disk "spiral.png" "voice.wav" None
               Infer.default_draw_weight Infer.default_voice_weight = Ok r /\
             Infer.r_drawing_prob r = 0.8%Q /\ Infer.r_decision r = "Parkinson").
  { eexists. split; [vm_compute; reflexivity | split; reflexivity]. }
  destruct Hcli as (r & Hcli & Hd & Hdec).
  destruct (http_answers_what_cli_reports (F:=Q) (Scenario.senv 0.8 0.2) Scenario.disk
              "spiral.png" "voice.wav" None r
              (Scenario.request [("age", "15")]
                 [("spiral_img", Scenario.upload "drawing.png" "PNG");
                  ("voice_wav", Scenario.upload "Take 2.WAV" "RIFF")])
              Scenario.world0
              (Scenario.upload "drawing.png" "PNG") (Scenario.upload "Take 2.WAV" "RIFF")
              eq_refl eq_refl Hcli eq_refl eq_refl eq_refl)
    as (resp & w' & Hrun & Hstatus & Hfd & _ & _ & _ & Hfp).
  exists resp, w'. split; [exact Hrun |]. split; [exact Hstatus |]. split.
  - by rewrite Hfd, Hd.
  - by rewrite Hfp, Hdec.
Defined.

(** ** The extension of the uploaded recording *)

Section Extension.

Context {F : Type} `{PyFloat F}.

Variable senv : Server.ServerEnv (F:=F).






End Extension.


